(** * DID registry on a BSV overlay and certificate issuer

    A shallow embedding of
    - [BsvOverlayRegistry] ([createDID], [resolveDID], [updateDID],
      [buildOpReturnScript]) and
    - the [signCertificate] route with [certifierSignCheckArgs],
    followed by the properties the specification states about them.

    Conventions.
    - A JavaScript string is a [string]: the sequence of its UTF-8 bytes.
      Concatenation and splitting on the ASCII colon agree with the
      JavaScript operations under that reading.
    - A thrown [Error] is [Err message]; a promise that rejects is a
      result that is [Err].
    - Functions of the SDK, of the JavaScript runtime and of the network that
      the repository calls but does not define are fields of a record that
      the embedded function receives ([Platform], [WalletClient], [Wallet]). *)

From Stdlib Require Import List String Ascii ZArith NArith Lia Bool.
From Stdlib.Strings Require Import Byte.
From Stdlib Require Import Decimal DecimalFacts DecimalString DecimalPos DecimalN.
Import ListNotations.
Set Warnings "-register-all".
Local Open Scope list_scope.
Local Open Scope string_scope.

(** ** Results of fallible calls *)

Inductive result (A : Type) : Type :=
| Ok (value : A)
| Err (message : string).
Arguments Ok {A} value.
Arguments Err {A} message.

(** ** JavaScript values and strings *)

Module Js.

(** JSON values; [undefined] is the [None] of [option Json]. Numbers are the
    integers (the only numbers the modelled code builds). *)
Inductive Json : Type :=
| JNull
| JBool (b : bool)
| JNum (n : Z)
| JStr (s : string)
| JArr (items : list Json)
| JObj (props : list (string * Json)).

(** An object is its property list, in insertion order (the order in which
    [JSON.stringify] prints it, and so part of what [createDID] hashes). *)
Definition Obj : Type := list (string * Json).

(** ToBoolean. *)
Definition truthy (v : option Json) : bool :=
  match v with
  | None => false
  | Some JNull => false
  | Some (JBool b) => b
  | Some (JNum n) => negb (Z.eqb n 0)
  | Some (JStr s) => negb (String.eqb s "")
  | Some (JArr _) => true
  | Some (JObj _) => true
  end.

(** ToBoolean of an optional string ([undefined] and [""] are falsy). *)
Definition truthy_str (v : option string) : bool :=
  match v with
  | None => false
  | Some s => negb (String.eqb s "")
  end.

(** [o[k]] *)
Fixpoint get (k : string) (o : Obj) : option Json :=
  match o with
  | [] => None
  | (k', v) :: rest => if String.eqb k k' then Some v else get k rest
  end.

(** [o[k] = v]: an existing property keeps its position, a new one goes
    last. The spread literal [{...o, k1: v1, k2: v2}] is
    [set k2 v2 (set k1 v1 o)]. *)
Fixpoint set (k : string) (v : Json) (o : Obj) : Obj :=
  match o with
  | [] => [(k, v)]
  | (k', v') :: rest =>
      if String.eqb k k' then (k', v) :: rest else (k', v') :: set k v rest
  end.

(** [a || b] on a property that may be absent. *)
Definition or_else (v : option Json) (d : Json) : Json :=
  match v with
  | Some x => if truthy v then x else d
  | None => d
  end.

(** A template literal prints an absent value as [undefined]. *)
Definition show (v : option string) : string :=
  match v with
  | Some s => s
  | None => "undefined"
  end.

(** [s.split(sep)] for a one-character separator. *)
Fixpoint split (sep : ascii) (s : string) : list string :=
  match s with
  | EmptyString => [EmptyString]
  | String c rest =>
      if Ascii.eqb c sep then EmptyString :: split sep rest
      else match split sep rest with
           | seg :: segs => String c seg :: segs
           | [] => [String c EmptyString]
           end
  end.

(** Whether the character occurs in the string. *)
Fixpoint occurs (c : ascii) (s : string) : bool :=
  match s with
  | EmptyString => false
  | String c' rest => Ascii.eqb c' c || occurs c rest
  end.

Definition colon : ascii := ":"%char.

(** *** Numbers: [parseInt] and [String(n)] *)

(** A number is NaN, an infinity, or an integer: [Int n] stands for the
    double nearest to [n], which is [n] itself up to 2^53. *)
Inductive Number : Type :=
| NaN
| Infinity (negative : bool)
| Int (n : Z).

(** The double nearest to a natural number, to the even mantissa on a tie;
    [None] from 2^1024 on, where it is an infinity. *)
Definition nearestDouble (m : Z) : option Z :=
  if (m <? 9007199254740992)%Z then Some m
  else
    let e := (Z.log2 m - 52)%Z in
    let q := Z.shiftr m e in
    let r := (m - Z.shiftl q e)%Z in
    let half := Z.shiftl 1 (e - 1) in
    let q' :=
      if ((half <? r)%Z || ((r =? half)%Z && Z.odd q))%bool
      then (q + 1)%Z else q in
    let v := Z.shiftl q' e in
    if (Z.log2 v <? 1024)%Z then Some v else None.

(** StrWhiteSpaceChar: the rest of the string after one white space or line
    terminator character at its start, if there is one. The characters
    beyond ASCII are U+00A0, U+1680, U+2000 to U+200A, U+2028, U+2029,
    U+202F, U+205F, U+3000 and U+FEFF, in their UTF-8 bytes. *)
Definition afterWhiteSpace (s : string) : option string :=
  match s with
  | EmptyString => None
  | String c1 r1 =>
      let n1 := nat_of_ascii c1 in
      if (Nat.eqb n1 9 || Nat.eqb n1 10 || Nat.eqb n1 11 || Nat.eqb n1 12
          || Nat.eqb n1 13 || Nat.eqb n1 32)%bool
      then Some r1
      else
        match r1 with
        | EmptyString => None
        | String c2 r2 =>
            let n2 := nat_of_ascii c2 in
            if (Nat.eqb n1 194 && Nat.eqb n2 160)%bool then Some r2
            else
              match r2 with
              | EmptyString => None
              | String c3 r3 =>
                  let n3 := nat_of_ascii c3 in
                  if ((Nat.eqb n1 225 && Nat.eqb n2 154 && Nat.eqb n3 128)
                      || (Nat.eqb n1 226 && Nat.eqb n2 128
                          && ((Nat.leb 128 n3 && Nat.leb n3 138)
                              || Nat.eqb n3 168 || Nat.eqb n3 169
                              || Nat.eqb n3 175))
                      || (Nat.eqb n1 226 && Nat.eqb n2 129 && Nat.eqb n3 159)
                      || (Nat.eqb n1 227 && Nat.eqb n2 128 && Nat.eqb n3 128)
                      || (Nat.eqb n1 239 && Nat.eqb n2 187
                          && Nat.eqb n3 191))%bool
                  then Some r3 else None
              end
        end
  end.

(** The string without its leading white space; [fuel] bounds the number of
    characters removed, and the length of the string is enough. *)
Fixpoint trimStartWithin (fuel : nat) (s : string) : string :=
  match fuel with
  | O => s
  | S fuel' =>
      match afterWhiteSpace s with
      | Some rest => trimStartWithin fuel' rest
      | None => s
      end
  end.

Definition trimStart (s : string) : string :=
  trimStartWithin (String.length s) s.

(** The value of a digit in the given radix, if it is one. *)
Definition digitValue (radix : Z) (c : ascii) : option Z :=
  let n := Z.of_nat (nat_of_ascii c) in
  let v :=
    if ((48 <=? n)%Z && (n <=? 57)%Z)%bool then Some (n - 48)%Z
    else if ((97 <=? n)%Z && (n <=? 122)%Z)%bool then Some (n - 87)%Z
    else if ((65 <=? n)%Z && (n <=? 90)%Z)%bool then Some (n - 55)%Z
    else None in
  match v with
  | Some d => if (d <? radix)%Z then Some d else None
  | None => None
  end.

(** The longest prefix of digits, accumulated; [seen] tells whether at least
    one digit was read. *)
Fixpoint leadingDigits (radix : Z) (s : string) (acc : Z) (seen : bool) : option Z :=
  match s with
  | EmptyString => if seen then Some acc else None
  | String c rest =>
      match digitValue radix c with
      | Some d => leadingDigits radix rest (acc * radix + d)%Z true
      | None => if seen then Some acc else None
      end
  end.

(** [parseInt(s)] with no radix argument: leading white space, an optional
    sign, an optional [0x] prefix, the digits; the integer read is rounded
    to the nearest double (the language lets an engine read the decimal
    digits after the twentieth as zeros; V8 rounds the whole numeral). *)
Definition parseInt (s : string) : Number :=
  let t := trimStart s in
  let '(sign, u) :=
    match t with
    | String "-"%char rest => ((-1)%Z, rest)
    | String "+"%char rest => (1%Z, rest)
    | _ => (1%Z, t)
    end in
  let '(radix, body) :=
    match u with
    | String "0"%char (String "x"%char rest) => (16%Z, rest)
    | String "0"%char (String "X"%char rest) => (16%Z, rest)
    | _ => (10%Z, u)
    end in
  match leadingDigits radix body 0%Z false with
  | Some n =>
      match nearestDouble n with
      | Some v => Int (sign * v)
      | None => Infinity (sign <? 0)%Z
      end
  | None => NaN
  end.

(** The decimal numeral of a natural number. *)
Definition decimal (n : N) : string :=
  NilEmpty.string_of_uint (N.to_uint n).

(** The value of a decimal numeral read after the digits that gave [acc]. *)
Fixpoint numeralValue (d : uint) (acc : Z) : Z :=
  match d with
  | Nil => acc
  | D0 d => numeralValue d (acc * 10 + 0)
  | D1 d => numeralValue d (acc * 10 + 1)
  | D2 d => numeralValue d (acc * 10 + 2)
  | D3 d => numeralValue d (acc * 10 + 3)
  | D4 d => numeralValue d (acc * 10 + 4)
  | D5 d => numeralValue d (acc * 10 + 5)
  | D6 d => numeralValue d (acc * 10 + 6)
  | D7 d => numeralValue d (acc * 10 + 7)
  | D8 d => numeralValue d (acc * 10 + 8)
  | D9 d => numeralValue d (acc * 10 + 9)
  end%Z.

(** The fewest digits [s], with the power of ten [m] to go with them, such
    that [s * 10^m] still rounds to the double [v] of [n] digits; among
    several, the nearest to [v]. [k] is the number of digits tried. *)
Fixpoint shortestDigits (fuel k n : nat) (v : Z) : Z * nat :=
  match fuel with
  | O => (v, O)
  | S fuel' =>
      let m := (n - k)%nat in
      let p := (10 ^ Z.of_nat m)%Z in
      let lo := (v / p)%Z in
      let hi := (lo + 1)%Z in
      let names c :=
        match nearestDouble (c * p) with
        | Some d => (d =? v)%Z
        | None => false
        end in
      match names lo, names hi with
      | true, true =>
          let below := (v - lo * p)%Z in
          let above := (hi * p - v)%Z in
          if (below <? above)%Z then (lo, m)
          else if (above <? below)%Z then (hi, m)
          else if Z.even lo then (lo, m) else (hi, m)
      | true, false => (lo, m)
      | false, true => (hi, m)
      | false, false => shortestDigits fuel' (S k) n v
      end
  end.

Fixpoint dropTrailingZeros (s : string) : string :=
  match s with
  | EmptyString => EmptyString
  | String c rest =>
      match dropTrailingZeros rest with
      | EmptyString =>
          if Ascii.eqb c "0" then EmptyString else String c EmptyString
      | kept => String c kept
      end
  end.

Fixpoint zeros (n : nat) : string :=
  match n with
  | O => EmptyString
  | S k => String "0" (zeros k)
  end.

(** Number::toString on a positive integer-valued double: every digit below
    2^53, the fewest digits that name the double followed by zeros below
    10^21, and the exponent form from there on. *)
Definition printDouble (v : Z) : string :=
  if (v <? 9007199254740992)%Z then decimal (Z.to_N v)
  else
    let n := String.length (decimal (Z.to_N v)) in
    let '(s, m) := shortestDigits n 1 n v in
    let digits := decimal (Z.to_N s) in
    let size := (String.length digits + m)%nat in
    if Nat.leb size 21 then digits ++ zeros m
    else
      let mantissa :=
        match dropTrailingZeros digits with
        | String d EmptyString => String d EmptyString
        | String d more => String d ("." ++ more)
        | EmptyString => "0"
        end in
      mantissa ++ "e+" ++ decimal (N.of_nat (size - 1)).

Definition printMagnitude (m : Z) : string :=
  match nearestDouble m with
  | Some v => printDouble v
  | None => "Infinity"
  end.

(** [String(n)] and [`${n}`]. *)
Definition toString (n : Number) : string :=
  match n with
  | NaN => "NaN"
  | Infinity false => "Infinity"
  | Infinity true => "-Infinity"
  | Int z =>
      match z with
      | Z0 => "0"
      | Zpos p => printMagnitude (Zpos p)
      | Zneg p => "-" ++ printMagnitude (Zpos p)
      end
  end.

(** *** Bytes *)

Definition hexDigit (n : N) : ascii :=
  match n with
  | 0%N => "0" | 1%N => "1" | 2%N => "2" | 3%N => "3"
  | 4%N => "4" | 5%N => "5" | 6%N => "6" | 7%N => "7"
  | 8%N => "8" | 9%N => "9" | 10%N => "a" | 11%N => "b"
  | 12%N => "c" | 13%N => "d" | 14%N => "e" | _ => "f"
  end%char.

(** [Utils.toHex]: two lower-case hexadecimal digits a byte. *)
Fixpoint toHex (bs : list byte) : string :=
  match bs with
  | [] => EmptyString
  | b :: rest =>
      String (hexDigit (Byte.to_N b / 16))
        (String (hexDigit (Byte.to_N b mod 16)) (toHex rest))
  end.

Definition isHexDigit (c : ascii) : bool :=
  let n := nat_of_ascii c in
  ((Nat.leb 48 n && Nat.leb n 57) || (Nat.leb 97 n && Nat.leb n 102))%bool.

Fixpoint allHex (s : string) : bool :=
  match s with
  | EmptyString => true
  | String c rest => isHexDigit c && allHex rest
  end.

(** A byte array as [JSON.stringify] sees it: an array of numbers. *)
Definition bytesJson (bs : list byte) : Json :=
  JArr (map (fun b => JNum (Z.of_N (Byte.to_N b))) bs).

(** *** Letter case *)

Definition lowerChar (c : ascii) : ascii :=
  let n := nat_of_ascii c in
  if (Nat.leb 65 n && Nat.leb n 90)%bool then ascii_of_nat (n + 32) else c.

(** [s.toLowerCase()] on the ASCII letters. The bytes of a character outside
    ASCII are left as they are; no such character folds to one of the
    letters of [error], the only text the result is compared with. *)
Fixpoint toLowerCase (s : string) : string :=
  match s with
  | EmptyString => EmptyString
  | String c rest => String (lowerChar c) (toLowerCase rest)
  end.

End Js.

(** ** The DID registry ([BsvOverlayRegistry]) *)

Module Registry.
Import Js.

(** *** Collaborators *)

(** The arguments of [PushDrop.lock]. *)
Record LockArgs : Type := {
  lock_fields : list (list byte);
  protocolID : Z * string;
  keyID : string;
  counterparty : string;
  forSelf : bool;
  includeSignature : bool;
  lockPosition : string
}.

Record ActionInput : Type := {
  outpoint : string;
  inputDescription : string
}.

Record ActionOutput : Type := {
  lockingScript : string;
  satoshis : Z;
  outputDescription : string;
  basket : option string;
  customInstructions : option string
}.

(** [CreateActionArgs], with the members the registry fills in. *)
Record CreateActionArgs : Type := {
  description : string;
  inputs : list ActionInput;
  outputs : list ActionOutput;
  randomizeOutputs : option bool;
  labels : list string
}.

(** [CreateActionResult]: [txid] is an optional member. *)
Record CreateActionResult : Type := {
  txid : option string;
  tx : option (list byte)
}.

(** What [new PushDrop(wallet).lock(fields, ...)] leaves behind when it
    resolves with [includeSignature] set: the locking script, read with
    [toHex()], and the signature over the fields, which [lock] appends to
    the [fields] array it was handed. *)
Record PushDropLock : Type := {
  lock_hex : string;
  lock_signature : list byte
}.

(** The wallet: [lock] is [new PushDrop(wallet).lock(...)]; [createAction]
    funds, signs and broadcasts. *)
Record WalletClient : Type := {
  lock : LockArgs -> result PushDropLock;
  createAction : CreateActionArgs -> result CreateActionResult
}.

(** A script under construction: the chunks written so far. *)
Inductive ScriptChunk : Type :=
| OpCode (op : Z)
| Bin (data : list byte).

(** The body of the overlay lookup request. *)
Record LookupRequest : Type := {
  service : string;
  query_serialNumber : string;
  query_outpoint : string
}.

(** The overlay's answer, at the shape the lookup endpoint documents; each
    member may be absent. *)
Record Output : Type := {
  output_fields : option (list Json)
}.

Record LookupAnswer : Type := {
  answer_type : option string;
  answer_outputs : option (list Output)
}.

(** What [fetch] resolves to: the status and the outcome of
    [response.json()]. *)
Record Response : Type := {
  ok : bool;
  status : Z;
  json : result LookupAnswer
}.

(** Library and runtime functions the registry calls. *)
Record Platform : Type := {
  sha256 : string -> list byte;
  stringify : Json -> string;
  parse : string -> result Json;
  scriptHex : list ScriptChunk -> string;
  fetch : string -> LookupRequest -> result Response;
  EcdsaSecp256k1VerificationKey2019 : string
}.

(** [Utils.toArray(s, 'utf8')]. *)
Definition toArray_utf8 (s : string) : list byte := list_byte_of_string s.

(** *** State *)

(** A document of the [did_lookups] collection; a member that a stored
    document may lack is optional. *)
Record LookupRecord : Type := {
  serialNumber : string;
  rec_txid : option string;
  vout : option Z;
  rec_topic : string;
  didDocument : option Json;
  createdAt : Z
}.

(** The registry's fields set by the constructor; [db] tells whether a
    database handle was given, an empty [overlayProvider] is an unset one. *)
Record Config : Type := {
  topic : string;
  overlayProvider : string;
  db : bool
}.

(** What the methods read and change: [this.walletClient], the collection,
    whether the database currently rejects operations (and with which
    message), the requests handed to [createAction], and the lines written
    with [console.error] (a label and the error printed after it, or a label
    alone; the lines that print [error.stack] and [error.constructor.name]
    after an error are not kept, and neither is [console.log] tracing). *)
Record World : Type := {
  walletClient : option WalletClient;
  did_lookups : list LookupRecord;
  db_fault : option string;
  requests : list CreateActionArgs;
  console_errors : list (string * string)
}.

(** *** Computations: state and exceptions *)

Definition M (A : Type) : Type := World -> result A * World.

Definition ret {A} (a : A) : M A := fun w => (Ok a, w).

Definition throw {A} (message : string) : M A := fun w => (Err message, w).

Definition bind {A B} (m : M A) (k : A -> M B) : M B :=
  fun w =>
    match m w with
    | (Ok a, w') => k a w'
    | (Err e, w') => (Err e, w')
    end.

(** [try { m } catch (e) { handler e }]: what [m] did before it threw
    stays done. *)
Definition try_catch {A} (m : M A) (handler : string -> M A) : M A :=
  fun w =>
    match m w with
    | (Ok a, w') => (Ok a, w')
    | (Err e, w') => handler e w'
    end.

(** [await] of a collaborator's outcome. *)
Definition await {A} (r : result A) : M A := fun w => (r, w).

Notation "x <- c1 ;; c2" := (bind c1 (fun x => c2))
  (at level 61, c1 at next level, right associativity).
Notation "c1 ;; c2" := (bind c1 (fun _ => c2))
  (at level 61, right associativity).

Definition console_error (label : string) (err : string) : M unit :=
  fun w =>
    (Ok tt,
     {| walletClient := walletClient w;
        did_lookups := did_lookups w;
        db_fault := db_fault w;
        requests := requests w;
        console_errors := (console_errors w ++ [(label, err)])%list |}).

Definition set_walletClient (c : WalletClient) : M unit :=
  fun w =>
    (Ok tt,
     {| walletClient := Some c;
        did_lookups := did_lookups w;
        db_fault := db_fault w;
        requests := requests w;
        console_errors := console_errors w |}).

Definition get_walletClient : M (option WalletClient) :=
  fun w => (Ok (walletClient w), w).

(** [client.createAction(args)]: the request reaches the wallet, which
    answers. *)
Definition call_createAction (c : WalletClient) (args : CreateActionArgs)
  : M CreateActionResult :=
  fun w =>
    (createAction c args,
     {| walletClient := walletClient w;
        did_lookups := did_lookups w;
        db_fault := db_fault w;
        requests := (requests w ++ [args])%list;
        console_errors := console_errors w |}).

(** [db.collection('did_lookups').insertOne(r)] *)
Definition insertOne (r : LookupRecord) : M unit :=
  fun w =>
    match db_fault w with
    | Some e => (Err e, w)
    | None =>
        (Ok tt,
         {| walletClient := walletClient w;
            did_lookups := (did_lookups w ++ [r])%list;
            db_fault := db_fault w;
            requests := requests w;
            console_errors := console_errors w |})
    end.

(** [db.collection('did_lookups').findOne({ serialNumber })]: a document
    with that serial number, if there is one. The call asks for no order;
    among several the model takes the first inserted. *)
Definition findOne (serial : string) : M (option LookupRecord) :=
  fun w =>
    match db_fault w with
    | Some e => (Err e, w)
    | None =>
        (Ok (find (fun r => String.eqb (serialNumber r) serial)
               (did_lookups w)), w)
    end.

(** *** The methods *)

Record CreateOptions : Type := {
  opt_didDocument : Obj;
  publicKeyJWK : option Json;
  keyId : option string
}.

(** What a call of [createDID] draws from its surroundings: the outcome of
    [createWalletClient()], [Date.now()], the string
    [Math.random().toString(36).substring(2, 15)], and [new Date()]. *)
Record CreateOracle : Type := {
  newClient : result WalletClient;
  timestamp : Z;
  nonce : string;
  now : Z
}.

Record CreateResult : Type := {
  did : string;
  car : CreateActionResult;
  res_didDocument : Obj
}.

Record UpdateResult : Type := {
  upd_did : string;
  upd_txid : option string
}.

Fixpoint repeat_string (s : string) (n : nat) : string :=
  match n with
  | O => EmptyString
  | S k => s ++ repeat_string s k
  end.

Section Methods.

Variable P : Platform.
Variable cfg : Config.

Definition defaultContext : Json := JArr [JStr "https://www.w3.org/ns/did/v1"].

(** [{ ...didDocument, timestamp: Date.now(), nonce: ... }] *)
Definition uniqueData (doc : Obj) (o : CreateOracle) : Obj :=
  set "nonce" (JStr (nonce o)) (set "timestamp" (JNum (timestamp o)) doc).

Definition serialNumberBytes (doc : Obj) (o : CreateOracle) : list byte :=
  sha256 P (stringify P (JObj (uniqueData doc o))).

Definition serialNumberHex (doc : Obj) (o : CreateOracle) : string :=
  toHex (serialNumberBytes doc o).

(** [`did:bsv:${this.topic}:${serialNumber}`] *)
Definition didOf (serial : string) : string :=
  "did:bsv:" ++ topic cfg ++ ":" ++ serial.

Definition lockArgs (doc : Obj) (o : CreateOracle) : LockArgs :=
  {| lock_fields := [serialNumberBytes doc o];
     protocolID := (0%Z, "tm did");
     keyID := serialNumberHex doc o;
     counterparty := "self";
     forSelf := true;
     includeSignature := true;
     lockPosition := "before" |}.

(** The argument of [createAction] in [createDID]. [args.fields] is the
    array [lock] was called on, so by now it holds the serial number and the
    signature [lock] appended. *)
Definition createActionArgs (doc : Obj) (o : CreateOracle)
    (token : PushDropLock) : CreateActionArgs :=
  {| description := "Create DID transaction with BSV overlay";
     inputs := [];
     outputs :=
       [ {| lockingScript := lock_hex token;
            satoshis := 1;
            outputDescription := "DID PushDrop Token";
            basket := Some "bsv-did";
            customInstructions :=
              Some (stringify P
                (JObj [ ("protocolID", JArr [JNum 0; JStr "tm did"]);
                        ("counterparty", JStr "self");
                        ("keyID", JStr (serialNumberHex doc o));
                        ("fields",
                         JArr [ bytesJson (serialNumberBytes doc o);
                                bytesJson (lock_signature token) ]);
                        ("type", JStr "PushDrop");
                        ("didDocument", JObj doc) ])) |} ];
     randomizeOutputs := Some false;
     labels := ["bsv-did"; "create"] |}.

Definition verificationMethod (id : string) (did : string) (jwk : Json)
  : Json :=
  JObj [ ("id", JStr id);
         ("type", JStr (EcdsaSecp256k1VerificationKey2019 P));
         ("controller", JStr did);
         ("publicKeyJwk", jwk) ].

(** The document [createDID] returns: the spread of the input with the
    identifier, the context and six emptied lists, then the three
    assignments of whichever key branch is taken. *)
Definition finalDidDocument (opts : CreateOptions) (did : string) : Obj :=
  let doc := opt_didDocument opts in
  let base :=
    set "capabilityInvocation" (JArr [])
      (set "capabilityDelegation" (JArr [])
        (set "keyAgreement" (JArr [])
          (set "assertionMethod" (JArr [])
            (set "authentication" (JArr [])
              (set "verificationMethod" (JArr [])
                (set "@context" (or_else (get "@context" doc) defaultContext)
                  (set "id" (JStr did) doc))))))) in
  let withKey (id : string) (jwk : Json) :=
    set "assertionMethod" (JArr [JStr id])
      (set "authentication" (JArr [JStr id])
        (set "verificationMethod" (JArr [verificationMethod id did jwk])
          base)) in
  match publicKeyJWK opts with
  | Some jwk =>
      if truthy (Some jwk) then
        match keyId opts with
        | Some id =>
            if truthy_str (Some id) then withKey id jwk
            else withKey (did ++ "#key-1") jwk
        | None => withKey (did ++ "#key-1") jwk
        end
      else base
  | None => base
  end.

Definition lookupData (doc : Obj) (o : CreateOracle)
    (car : CreateActionResult) (final : Obj) : LookupRecord :=
  {| serialNumber := serialNumberHex doc o;
     rec_txid := txid car;
     vout := Some 0%Z;
     rec_topic := topic cfg;
     didDocument := Some (JObj final);
     createdAt := now o |}.

Definition createDID (opts : CreateOptions) (o : CreateOracle)
  : M CreateResult :=
  client <- await (newClient o) ;;
  set_walletClient client ;;
  try_catch
    (let doc := opt_didDocument opts in
     this_walletClient <- get_walletClient ;;
     match this_walletClient with
     | None =>
         console_error
           "[BsvOverlayRegistry] ERROR: WalletClient not initialized" "" ;;
         throw "WalletClient not initialized"
     | Some wallet =>
         let did := didOf (serialNumberHex doc o) in
         token <- await (lock wallet (lockArgs doc o)) ;;
         car <- call_createAction wallet (createActionArgs doc o token) ;;
         let final := finalDidDocument opts did in
         (if db cfg then
            try_catch
              (insertOne (lookupData doc o car final))
              (fun dbError =>
                 console_error
                   "[BsvOverlayRegistry] Error storing DID lookup in MongoDB:"
                   dbError)
          else ret tt) ;;
         ret {| did := did; car := car; res_didDocument := final |}
     end)
    (fun error =>
       console_error
         "[BsvOverlayRegistry] ========== createDID ERROR ==========" "" ;;
       console_error "[BsvOverlayRegistry] Error in createDID:" error ;;
       throw error).

(** The overlay query of [resolveDID]: [Some d] when the block returns the
    document [d], [None] when it ends without returning. *)
Definition queryOverlay (url serial outpoint : string) : M (option Json) :=
  response <- await
    (fetch P url {| service := "ls_did";
                    query_serialNumber := serial;
                    query_outpoint := outpoint |}) ;;
  if negb (ok response) then
    console_error "[BsvOverlayRegistry] ERROR: Overlay provider error:"
      (toString (Int (status response))) ;;
    throw ("Overlay provider error: " ++ toString (Int (status response)))
  else
    data <- await (json response) ;;
    match answer_type data, answer_outputs data with
    | Some type, Some (output :: _) =>
        if String.eqb type "output-list" then
          match output_fields output with
          | Some (didDocumentField :: _) =>
              try_catch
                (match didDocumentField with
                 | JStr text => d <- await (parse P text) ;; ret (Some d)
                 | other => ret (Some other)
                 end)
                (fun parseError =>
                   console_error
                     "[BsvOverlayRegistry] Error parsing DID document:"
                     parseError ;;
                   ret None)
          | _ => ret None
          end
        else ret None
    | _, _ => ret None
    end.

(** [resolveDID(did, car)]; the result [None] is [null]. *)
Definition resolveDID (did : string) (car : CreateActionResult)
  : M (option Json) :=
  try_catch
    (let didParts := split colon did in
     if negb (Nat.eqb (List.length didParts) 4
              && String.eqb (nth 0 didParts "") "did"
              && String.eqb (nth 1 didParts "") "bsv")
     then throw "Invalid DID format"
     else
       let serial := nth 3 didParts "" in
       if db cfg then
         didLookup <- findOne serial ;;
         match didLookup with
         | Some r =>
             if truthy (didDocument r) then ret (didDocument r)
             else
               match vout r with
               | Some n =>
                   if truthy_str (rec_txid r) then
                     let outpoint :=
                       show (rec_txid r) ++ "." ++ toString (Int n) in
                     if String.eqb (overlayProvider cfg) "" then
                       throw "Overlay provider URL not configured"
                     else
                       let url := overlayProvider cfg ++ "/lookup" in
                       found <- try_catch
                         (queryOverlay url serial outpoint)
                         (fun error =>
                            console_error
                              "[BsvOverlayRegistry] Error querying LARS:" error ;;
                            throw error) ;;
                       match found with
                       | Some d => ret (Some d)
                       | None => ret None
                       end
                   else ret None
               | None => ret None
               end
         | None => ret None
         end
       else ret None)
    (fun error =>
       console_error "[BsvOverlayRegistry] Error resolving DID:" error ;;
       throw ("Failed to resolve DID: " ++ error)).

(** [buildOpReturnScript(...data)] *)
Definition buildOpReturnScript (data : list string) : string :=
  scriptHex P
    ([OpCode 0; OpCode 106]
       ++ map (fun item => Bin (toArray_utf8 item)) data)%list.

(** The argument of [createAction] in [updateDID]. *)
Definition updateActionArgs (previousTxid : string) (previousVout : Number)
    (newDidDocument : Obj) : CreateActionArgs :=
  {| description :=
       "Update DID on BSV overlay (topic: " ++ topic cfg ++ ")";
     inputs :=
       [ {| outpoint := previousTxid ++ ":" ++ toString previousVout;
            inputDescription := "Previous DID output" |} ];
     outputs :=
       [ {| lockingScript :=
              buildOpReturnScript
                [ topic cfg; "UPDATE"; previousTxid; toString previousVout;
                  stringify P (JObj newDidDocument) ];
            satoshis := 0;
            outputDescription := "Updated DID Document";
            basket := None;
            customInstructions := None |};
         {| lockingScript := "76a914" ++ repeat_string "00" 20 ++ "88ac";
            satoshis := 1;
            outputDescription := "Updated DID identifier";
            basket := None;
            customInstructions :=
              Some (stringify P
                (JObj [ ("keyDerivation",
                         JObj [ ("purpose", JStr "did-identifier");
                                ("counterparty", JStr "self") ]) ])) |} ];
     randomizeOutputs := None;
     labels := ["quarkid"; "did"; "update"] |}.

Definition updateDID (did : string) (newDidDocument : Obj) : M UpdateResult :=
  try_catch
    (let parts := split colon did in
     if negb (Nat.eqb (List.length parts) 5) then
       console_error "[BsvOverlayRegistry] ERROR: Invalid DID format" "" ;;
       throw "Invalid DID format"
     else
       let previousTxid := nth 3 parts "" in
       let previousVout := parseInt (nth 4 parts "") in
       let args := updateActionArgs previousTxid previousVout newDidDocument in
       try_catch
         (this_walletClient <- get_walletClient ;;
          match this_walletClient with
          | None =>
              throw
                "Cannot read properties of undefined (reading 'createAction')"
          | Some wallet =>
              result <- call_createAction wallet args ;;
              ret {| upd_did :=
                       "did:bsv:" ++ topic cfg ++ ":" ++ show (txid result)
                       ++ ":1";
                     upd_txid := txid result |}
          end)
         (fun error =>
            console_error "[BsvOverlayRegistry] Error updating DID:" error ;;
            throw error))
    (fun error =>
       console_error "[BsvOverlayRegistry] Error updating DID:" error ;;
       throw error).

End Methods.

(** *** The constructor *)

(** [new BsvOverlayRegistry(kms, topic, overlayProvider, db)]: the three
    fields the methods read ([this.db = db || null], so [db] tells whether a
    handle was passed). *)
Definition constructor (topic overlayProvider : string) (db : bool) : Config :=
  {| topic := topic; overlayProvider := overlayProvider; db := db |}.

(** The state of an instance just constructed, beside a collection that
    holds [records]: the constructor does not assign [this.walletClient],
    nothing was requested and nothing was logged. *)
Definition constructed (records : list LookupRecord) (fault : option string)
  : World :=
  {| walletClient := None;
     did_lookups := records;
     db_fault := fault;
     requests := [];
     console_errors := [] |}.

(** *** The overlay notifier *)

(** [new TopicBroadcaster([topic]).broadcast(Transaction.fromBEEF(beef,
    txid))]: the topics, the BEEF bytes and the transaction id go in, the
    broadcaster's response object comes out; a failure of either call is a
    rejection. *)
Record Broadcaster : Type := {
  broadcast : list string -> list byte -> string -> result Obj
}.

Section Notifier.

Variable P : Platform.
Variable B : Broadcaster.

(** [notifyOverlayProvider(topic, beef, serialNumber, txid, outputIndex)].
    The test is [response.status === 'error' ||
    response.status?.toLowerCase() === 'error']: an absent or [null] status
    passes the optional chaining, a status that is no string has no
    [toLowerCase]. *)
Definition notifyOverlayProvider (topic : string) (beef : list byte)
    (serialNumber txid : string) (outputIndex : Z) : M unit :=
  try_catch
    (response <- await (broadcast B [topic] beef txid) ;;
     match get "status" response with
     | Some (JStr status) =>
         if (String.eqb status "error"
             || String.eqb (toLowerCase status) "error")%bool
         then
           console_error
             "[BsvOverlayRegistry] LARS submission failed with error status"
             "" ;;
           throw ("LARS submission failed: " ++ stringify P (JObj response))
         else ret tt
     | None => ret tt
     | Some JNull => ret tt
     | Some _ => throw "response.status?.toLowerCase is not a function"
     end)
    (fun error =>
       console_error "[BsvOverlayRegistry] Error notifying overlay provider:"
         error ;;
       throw error).

End Notifier.

(** *** What a computation leaves alone *)

(** The wallet client, the collection, the state of the database and the
    requests sent are the same in both worlds. *)
Definition same_store (w w' : World) : Prop :=
  walletClient w' = walletClient w
  /\ did_lookups w' = did_lookups w
  /\ db_fault w' = db_fault w
  /\ requests w' = requests w.

(** The console of the second world continues that of the first. *)
Definition console_grows (w w' : World) : Prop :=
  exists lines, console_errors w' = (console_errors w ++ lines)%list.

(** A computation that reads the world and writes to the console only. *)
Definition read_only {A} (m : M A) : Prop :=
  forall w, same_store w (snd (m w)) /\ console_grows w (snd (m w)).

End Registry.

(** ** The certificate issuer ([signCertificate]) *)

Module Certifier.

(** [Record<string, string>] *)
Definition Fields : Type := list (string * string).

(** The members the route reads from [req.body]; a member the client left
    out is [None]. *)
Record Body : Type := {
  clientNonce : option string;
  type : option string;
  fields : option Fields;
  masterKeyring : option Fields
}.

(** [req.body]: nothing at all when the request came without a body that
    the server has parsed, [null], or a value with members. *)
Inductive Sent : Type :=
| Undefined
| Null
| Members (b : Body).

(** The argument of [wallet.createHmac]. *)
Record HmacArgs : Type := {
  data : list byte;
  protocolID : Z * string;
  keyID : string;
  counterparty : string
}.

(** The members of a [Certificate]; [signature] is unset until signed. *)
Record Certificate : Type := {
  cert_type : string;
  serialNumber : string;
  subject : string;
  certifier : string;
  revocationOutpoint : string;
  cert_fields : Fields;
  signature : option string
}.

(** The SDK calls made with [req.wallet]. [verifyNonce] resolves to a
    boolean or rejects; the route awaits it and does not read the boolean (a
    nonce that does not verify shows as a rejection: the wallet interface's
    [verifyHmac], which [verifyNonce] awaits, resolves with [valid: true]
    only).
    [decryptFields] is [MasterCertificate.decryptFields]: it returns a new
    record and leaves the keyring and the fields it is given as they are.
    [sign] is [Certificate.sign]: the signature it computes over the
    certificate it is given, which the certificate then carries. *)
Record Wallet : Type := {
  verifyNonce : string -> string -> result bool;
  createNonce : string -> result string;
  createHmac : HmacArgs -> result (list byte);
  decryptFields : Fields -> Fields -> string -> result Fields;
  getPublicKey : result string;
  sign : Certificate -> result string
}.

(** [Utils.toArray(_, 'base64')] and [Utils.toBase64]. *)
Record Codec : Type := {
  toArray_base64 : string -> list byte;
  toBase64 : list byte -> string
}.

(** A request: the body, the wallet, and [req.auth.identityKey] ([None]
    when no [auth] was attached). *)
Record Request : Type := {
  body : Sent;
  wallet : Wallet;
  auth : option string
}.

(** What [res.status(n).json(...)] sends. *)
Inductive Payload : Type :=
| Signed (certificate : Certificate) (serverNonce : string)
| Failure (status : string) (code : option string) (description : string).

Record Response : Type := {
  http_status : Z;
  payload : Payload
}.

(** The lines written to the server's console. *)
Inductive LogLine : Type :=
| LogClientNonce (nonce : option string)
| LogDecryptedFields (plain : Fields)
| LogError (message : string).

(** Computations that log and may throw. *)
Definition Step (A : Type) : Type := list LogLine * result A.

Definition ret {A} (a : A) : Step A := ([], Ok a).

Definition bind {A B} (m : Step A) (k : A -> Step B) : Step B :=
  match m with
  | (l1, Ok a) => let '(l2, r) := k a in ((l1 ++ l2)%list, r)
  | (l1, Err e) => (l1, Err e)
  end.

Definition await {A} (r : result A) : Step A := ([], r).

Definition console (line : LogLine) : Step unit := ([line], Ok tt).

Notation "x <- c1 ;; c2" := (bind c1 (fun x => c2))
  (at level 61, c1 at next level, right associativity).
Notation "c1 ;; c2" := (bind c1 (fun _ => c2))
  (at level 61, right associativity).

(** The value of a member that validation has shown to be present. *)
Definition the {A} (v : option A) (undefined : A) : A :=
  match v with
  | Some a => a
  | None => undefined
  end.

Definition certifierSignCheckArgs (args : Body) : result unit :=
  if negb (Js.truthy_str (clientNonce args)) then
    Err "Missing client nonce!"
  else if negb (Js.truthy_str (type args)) then
    Err "Missing certificate type!"
  else if match fields args with Some _ => false | None => true end then
    Err "Missing certificate fields to sign!"
  else if match masterKeyring args with Some _ => false | None => true end then
    Err "Missing masterKeyring to decrypt fields!"
  else Ok tt.

Definition revocationTxid : string :=
  "0000000000000000000000000000000000000000000000000000000000000000".

(** The message of the TypeError thrown by [const { clientNonce, ... } =
    req.body] when the body is [undefined] or [null]. *)
Definition notDestructurable (what : string) : string :=
  "Cannot destructure property 'clientNonce' of 'req.body' as it is "
  ++ what ++ ".".

Definition internalError : Response :=
  {| http_status := 500;
     payload := Failure "error" (Some "ERR_INTERNAL")
                  "An internal error has occurred." |}.

Section Route.

Variable U : Codec.

(** The argument of [createHmac] for a pair of nonces and an identity. *)
Definition hmacArgs (clientNonce serverNonce identityKey : string) : HmacArgs :=
  {| data := toArray_base64 U (clientNonce ++ serverNonce);
     protocolID := (2%Z, "certificate issuance");
     keyID := serverNonce ++ clientNonce;
     counterparty := identityKey |}.

(** The steps of the route after validation, inside the outer [try], on
    the members [b] read from the body. *)
Definition issue (b : Body) (req : Request) : Step Response :=
  let w := wallet req in
  let clientNonce := the (clientNonce b) "undefined" in
  let type := the (type b) "undefined" in
  let fields := the (fields b) [] in
  let masterKeyring := the (masterKeyring b) [] in
  identityKey <- await
    (match auth req with
     | Some k => Ok k
     | None =>
         Err "Cannot read properties of undefined (reading 'identityKey')"
     end) ;;
  await (verifyNonce w clientNonce identityKey) ;;
  serverNonce <- await (createNonce w identityKey) ;;
  hmac <- await (createHmac w (hmacArgs clientNonce serverNonce identityKey)) ;;
  let serialNumber := toBase64 U hmac in
  decryptedFields <- await
    (decryptFields w masterKeyring fields identityKey) ;;
  console (LogDecryptedFields decryptedFields) ;;
  publicKey <- await (getPublicKey w) ;;
  let signedCertificate :=
    {| cert_type := type;
       serialNumber := serialNumber;
       subject := identityKey;
       certifier := publicKey;
       revocationOutpoint := revocationTxid ++ ".0";
       cert_fields := fields;
       signature := None |} in
  sig <- await (sign w signedCertificate) ;;
  ret {| http_status := 200;
         payload :=
           Signed
             {| cert_type := type;
                serialNumber := serialNumber;
                subject := identityKey;
                certifier := publicKey;
                revocationOutpoint := revocationTxid ++ ".0";
                cert_fields := fields;
                signature := Some sig |}
             serverNonce |}.


(** [signCertificate.func]: the response sent and the console's lines.
    Reading the four members is the first statement of the outer [try]: on a
    body that is [undefined] or [null] it throws, and the outer handler
    answers before anything else is written. *)
Definition func (req : Request) : Response * list LogLine :=
  match body req with
  | Undefined => (internalError, [LogError (notDestructurable "undefined")])
  | Null => (internalError, [LogError (notDestructurable "null")])
  | Members b =>
      let entry := LogClientNonce (clientNonce b) in
      match certifierSignCheckArgs b with
      | Err message =>
          ({| http_status := 400;
              payload := Failure "error" None message |}, [entry])
      | Ok _ =>
          match issue b req with
          | (lines, Ok response) => (response, entry :: lines)
          | (lines, Err e) =>
              (internalError, (entry :: lines ++ [LogError e])%list)
          end
      end
  end.

End Route.

(** The request served by a wallet that differs only in what decrypting the
    fields yields. *)
Definition decryptingTo (plain : result Fields) (req : Request) : Request :=
  {| body := body req;
     wallet :=
       {| verifyNonce := verifyNonce (wallet req);
          createNonce := createNonce (wallet req);
          createHmac := createHmac (wallet req);
          decryptFields := fun _ _ _ => plain;
          getPublicKey := getPublicKey (wallet req);
          sign := sign (wallet req) |};
     auth := auth req |}.

(** A response with status 200 and the given certificate and nonce. *)
Definition success (c : Certificate) (serverNonce : string) : Response :=
  {| http_status := 200; payload := Signed c serverNonce |}.

(** A response with status 400 and the given description. *)
Definition badRequest (description : string) : Response :=
  {| http_status := 400; payload := Failure "error" None description |}.

End Certifier.

(** ** Concrete collaborators, to run the embedding on examples *)

Module Sample.
Import Js.

(** A 32-byte stand-in for the digest: the first 32 bytes of the message,
    padded with zero bytes. *)
Definition digest32 (message : string) : list byte :=
  firstn 32 (list_byte_of_string message ++ repeat x00 32)%list.

Definition quote (s : string) : string :=
  String (ascii_of_nat 34) (s ++ String (ascii_of_nat 34) EmptyString).

(** A serialiser in the manner of [JSON.stringify], without escapes in
    strings. *)
Fixpoint stringify (v : Json) : string :=
  match v with
  | JNull => "null"
  | JBool true => "true"
  | JBool false => "false"
  | JNum n => toString (Int n)
  | JStr s => quote s
  | JArr items =>
      "["
      ++ (fix each (l : list Json) : string :=
            match l with
            | [] => ""
            | x :: rest =>
                stringify x
                ++ match rest with [] => "" | _ => "," ++ each rest end
            end) items
      ++ "]"
  | JObj props =>
      "{"
      ++ (fix each (l : list (string * Json)) : string :=
            match l with
            | [] => ""
            | (k, x) :: rest =>
                quote k ++ ":" ++ stringify x
                ++ match rest with [] => "" | _ => "," ++ each rest end
            end) props
      ++ "}"
  end.

(** A parser that rejects every text. *)
Definition rejectingParse (text : string) : result Json :=
  Err ("Unexpected token in JSON: " ++ text).

Definition scriptHex (chunks : list Registry.ScriptChunk) : string :=
  toHex (flat_map (fun c => match c with
                            | Registry.OpCode _ => []
                            | Registry.Bin d => d
                            end) chunks).

(** An overlay that answers every lookup with one output whose first field
    is the given value. *)
Definition answering (field : Json)
  : string -> Registry.LookupRequest -> result Registry.Response :=
  fun _ _ =>
    Ok {| Registry.ok := true;
          Registry.status := 200;
          Registry.json :=
            Ok {| Registry.answer_type := Some "output-list";
                  Registry.answer_outputs :=
                    Some [ {| Registry.output_fields := Some [field] |} ] |} |}.

(** An overlay that answers every lookup with the given status and no
    readable body. *)
Definition failing (code : Z)
  : string -> Registry.LookupRequest -> result Registry.Response :=
  fun _ _ =>
    Ok {| Registry.ok := false;
          Registry.status := code;
          Registry.json := Err "Unexpected end of JSON input" |}.

Definition platform
    (net : string -> Registry.LookupRequest -> result Registry.Response)
  : Registry.Platform :=
  {| Registry.sha256 := digest32;
     Registry.stringify := stringify;
     Registry.parse := rejectingParse;
     Registry.scriptHex := scriptHex;
     Registry.fetch := net;
     Registry.EcdsaSecp256k1VerificationKey2019 :=
       "EcdsaSecp256k1VerificationKey2019" |}.

Definition anchor : Registry.CreateActionResult :=
  {| Registry.txid := Some "beef"; Registry.tx := None |}.

(** What locking leaves: a script and the signature appended to the
    fields. *)
Definition token : Registry.PushDropLock :=
  {| Registry.lock_hex := "21ac";
     Registry.lock_signature := [x30; x45] |}.

(** A wallet that accepts every request and names every transaction
    [beef]. *)
Definition client : Registry.WalletClient :=
  {| Registry.lock := fun _ => Ok token;
     Registry.createAction := fun _ => Ok anchor |}.

Definition config (t : string) : Registry.Config :=
  {| Registry.topic := t;
     Registry.overlayProvider := "https://overlay.example";
     Registry.db := true |}.

Definition emptyWorld : Registry.World :=
  {| Registry.walletClient := None;
     Registry.did_lookups := [];
     Registry.db_fault := None;
     Registry.requests := [];
     Registry.console_errors := [] |}.

(** A world whose database rejects every operation. *)
Definition downWorld : Registry.World :=
  {| Registry.walletClient := None;
     Registry.did_lookups := [];
     Registry.db_fault := Some "connection refused";
     Registry.requests := [];
     Registry.console_errors := [] |}.

(** An index record with an outpoint and no document. *)
Definition hint : Registry.LookupRecord :=
  {| Registry.serialNumber := "abcd";
     Registry.rec_txid := Some "beef";
     Registry.vout := Some 0%Z;
     Registry.rec_topic := "tm_did";
     Registry.didDocument := None;
     Registry.createdAt := 0 |}.

(** A world whose index holds that record only. *)
Definition hintWorld : Registry.World :=
  {| Registry.walletClient := None;
     Registry.did_lookups := [hint];
     Registry.db_fault := None;
     Registry.requests := [];
     Registry.console_errors := [] |}.

(** A world in which [createDID] has run before. *)
Definition readyWorld : Registry.World :=
  {| Registry.walletClient := Some client;
     Registry.did_lookups := [];
     Registry.db_fault := None;
     Registry.requests := [];
     Registry.console_errors := [] |}.

Definition jwk : Json :=
  JObj [("kty", JStr "EC"); ("crv", JStr "secp256k1")].

Definition options : Registry.CreateOptions :=
  {| Registry.opt_didDocument :=
       [("id", JStr "placeholder");
        ("verificationMethod", JArr [JStr "stale"]);
        ("keyAgreement", JArr [JStr "stale"])];
     Registry.publicKeyJWK := Some jwk;
     Registry.keyId := None |}.

Definition oracle : Registry.CreateOracle :=
  {| Registry.newClient := Ok client;
     Registry.timestamp := 1700000000000;
     Registry.nonce := "k3j9x0q2lmz";
     Registry.now := 1700000000001 |}.

Definition codec : Certifier.Codec :=
  {| Certifier.toArray_base64 := list_byte_of_string;
     Certifier.toBase64 := string_of_list_byte |}.

Definition wallet : Certifier.Wallet :=
  {| Certifier.verifyNonce := fun _ _ => Ok true;
     Certifier.createNonce := fun _ => Ok "c2VydmVy";
     Certifier.createHmac := fun a => Ok (Certifier.data a);
     Certifier.decryptFields := fun _ _ _ => Ok [("cool", "true")];
     Certifier.getPublicKey := Ok "025384";
     Certifier.sign := fun _ => Ok "3045" |}.

(** The same wallet with a keyring it cannot use. *)
Definition walletBadKeyring : Certifier.Wallet :=
  {| Certifier.verifyNonce := fun _ _ => Ok true;
     Certifier.createNonce := fun _ => Ok "c2VydmVy";
     Certifier.createHmac := fun a => Ok (Certifier.data a);
     Certifier.decryptFields :=
       fun _ _ _ => Err "Decryption failed for field cool";
     Certifier.getPublicKey := Ok "025384";
     Certifier.sign := fun _ => Ok "3045" |}.

(** The members of a well-formed signing request. *)
Definition members : Certifier.Body :=
  {| Certifier.clientNonce := Some "Y2xpZW50";
     Certifier.type := Some "jVNgF8";
     Certifier.fields := Some [("cool", "ZW5jcnlwdGVk")];
     Certifier.masterKeyring := Some [("cool", "Eb8Nc9")] |}.

Definition request : Certifier.Request :=
  {| Certifier.body := Certifier.Members members;
     Certifier.wallet := wallet;
     Certifier.auth := Some "02a1c8" |}.

(** The same request without its keyring. *)
Definition membersNoKeyring : Certifier.Body :=
  {| Certifier.clientNonce := Some "Y2xpZW50";
     Certifier.type := Some "jVNgF8";
     Certifier.fields := Some [("cool", "ZW5jcnlwdGVk")];
     Certifier.masterKeyring := None |}.

Definition requestNoKeyring : Certifier.Request :=
  {| Certifier.body := Certifier.Members membersNoKeyring;
     Certifier.wallet := wallet;
     Certifier.auth := Some "02a1c8" |}.

(** The certificate the wallet above signs for that request. *)
Definition certificate : Certifier.Certificate :=
  {| Certifier.cert_type := "jVNgF8";
     Certifier.serialNumber := "Y2xpZW50c2VydmVy";
     Certifier.subject := "02a1c8";
     Certifier.certifier := "025384";
     Certifier.revocationOutpoint :=
       "0000000000000000000000000000000000000000000000000000000000000000.0";
     Certifier.cert_fields := [("cool", "ZW5jcnlwdGVk")];
     Certifier.signature := Some "3045" |}.

Definition requestBadKeyring : Certifier.Request :=
  {| Certifier.body := Certifier.body request;
     Certifier.wallet := walletBadKeyring;
     Certifier.auth := Some "02a1c8" |}.

(** A request that reaches the route with no body. *)
Definition requestNoBody : Certifier.Request :=
  {| Certifier.body := Certifier.Undefined;
     Certifier.wallet := wallet;
     Certifier.auth := Some "02a1c8" |}.

(** An index record that holds a document and no outpoint, filed under
    another topic. *)
Definition stored : Registry.LookupRecord :=
  {| Registry.serialNumber := "abcd";
     Registry.rec_txid := None;
     Registry.vout := None;
     Registry.rec_topic := "elsewhere";
     Registry.didDocument :=
       Some (JObj [("id", JStr "did:bsv:elsewhere:abcd")]);
     Registry.createdAt := 0 |}.

Definition storedWorld : Registry.World :=
  Registry.constructed [stored] None.

(** A wallet that locks the token and then cannot fund the transaction. *)
Definition unfundedClient : Registry.WalletClient :=
  {| Registry.lock := fun _ => Ok token;
     Registry.createAction := fun _ => Err "Insufficient funds" |}.

(** A later call that draws the timestamp and the nonce of [oracle]. *)
Definition laterOracle : Registry.CreateOracle :=
  {| Registry.newClient := Ok client;
     Registry.timestamp := Registry.timestamp oracle;
     Registry.nonce := Registry.nonce oracle;
     Registry.now := 1700000086401 |}.

Definition unfundedOracle : Registry.CreateOracle :=
  {| Registry.newClient := Ok unfundedClient;
     Registry.timestamp := 1700000000000;
     Registry.nonce := "k3j9x0q2lmz";
     Registry.now := 1700000000001 |}.

(** A document with a context and a service of its own, and no key. *)
Definition optionsWithService : Registry.CreateOptions :=
  {| Registry.opt_didDocument :=
       [("@context", JArr [JStr "https://w3id.org/did/v1"]);
        ("service", JArr [JStr "hub"]);
        ("authentication", JArr [JStr "stale"])];
     Registry.publicKeyJWK := None;
     Registry.keyId := None |}.

(** The document of [options], submitted without a key. *)
Definition optionsWithoutKey : Registry.CreateOptions :=
  {| Registry.opt_didDocument := Registry.opt_didDocument options;
     Registry.publicKeyJWK := None;
     Registry.keyId := None |}.

(** The platform and the registry most examples run on. *)
Definition sdk : Registry.Platform := platform (failing 503).

Definition registry : Registry.Config := config "tm_did".

(** An overlay answer whose first field is a document, not text. *)
Definition documentField : Json := JObj [("id", JStr "did:bsv:tm_did:abcd")].

(** A request like [request] with a wallet that refuses the nonce. *)
Definition requestReplayed : Certifier.Request :=
  {| Certifier.body := Certifier.body requestNoKeyring;
     Certifier.wallet :=
       {| Certifier.verifyNonce := fun _ _ => Err "HMAC is not valid";
          Certifier.createNonce := fun _ => Ok "c2VydmVy";
          Certifier.createHmac := fun a => Ok (Certifier.data a);
          Certifier.decryptFields := fun _ _ _ => Ok [("cool", "true")];
          Certifier.getPublicKey := Ok "025384";
          Certifier.sign := fun _ => Ok "3045" |};
     Certifier.auth := None |}.

End Sample.

(** * Properties *)

(** ** Strings, objects and numbers *)

Module JsFacts.
Import Js.

Example split_identifier :
  split colon "did:bsv:tm_did:abcd" = ["did"; "bsv"; "tm_did"; "abcd"]
  /\ split colon "" = [""]
  /\ split colon "a::b" = ["a"; ""; "b"].
Proof. repeat split. Qed.

Example parseInt_samples :
  parseInt "0" = Int 0 /\ parseInt "007" = Int 7 /\ parseInt " 42abc" = Int 42
  /\ parseInt "0x1f" = Int 31 /\ parseInt "-5" = Int (-5)
  /\ parseInt "" = NaN /\ parseInt "abc" = NaN.
Proof. repeat split. Qed.

Example toString_samples :
  toString (Int 0) = "0" /\ toString (Int 1700000000000) = "1700000000000"
  /\ toString (Int (-12)) = "-12" /\ toString NaN = "NaN"
  /\ toString (Int 9007199254740993) = "9007199254740992"
  /\ toString (Int 123456789012345678901) = "123456789012345680000"
  /\ toString (Int 1000000000000000000000) = "1e+21"
  /\ toString (Int 1234567890123456789012) = "1.2345678901234568e+21"
  /\ toString (Infinity true) = "-Infinity".
Proof. repeat split; vm_compute; reflexivity. Qed.

(** White space of every kind is skipped, and a long numeral is read as the
    nearest double. *)
Example parseInt_rounds :
  parseInt "9007199254740993" = Int 9007199254740992
  /\ parseInt "9007199254740995" = Int 9007199254740996
  /\ parseInt (String (ascii_of_nat 194) (String (ascii_of_nat 160) "12"))
     = Int 12
  /\ parseInt (String (ascii_of_nat 239) (String (ascii_of_nat 187)
                 (String (ascii_of_nat 191) " 7"))) = Int 7
  /\ parseInt "-0x10" = Int (-16).
Proof. repeat split; vm_compute; reflexivity. Qed.

Example toHex_sample : toHex [x00; xff; x1a] = "00ff1a".
Proof. reflexivity. Qed.

Example spread_keeps_position :
  set "a" (JNum 3) [("a", JNum 1); ("b", JNum 2)]
    = [("a", JNum 3); ("b", JNum 2)]
  /\ set "c" (JNum 3) [("a", JNum 1); ("b", JNum 2)]
     = [("a", JNum 1); ("b", JNum 2); ("c", JNum 3)].
Proof. split; reflexivity. Qed.

Lemma get_set (k k' : string) (v : Json) (o : Obj) :
  get k (set k' v o) = if String.eqb k k' then Some v else get k o.
Proof.
  induction o as [|[k0 v0] rest IH]; simpl.
  - reflexivity.
  - destruct (String.eqb k' k0) eqn:E'; simpl.
    + apply String.eqb_eq in E'; subst k0.
      destruct (String.eqb k k'); reflexivity.
    + rewrite IH.
      destruct (String.eqb k k0) eqn:E0; [|reflexivity].
      apply String.eqb_eq in E0; subst k0.
      destruct (String.eqb k k') eqn:E; [|reflexivity].
      apply String.eqb_eq in E; subst k'.
      rewrite String.eqb_refl in E'. discriminate.
Qed.

Lemma split_not_nil (sep : ascii) (s : string) : split sep s <> [].
Proof.
  destruct s as [|c r]; simpl; [discriminate|].
  destruct (Ascii.eqb c sep); [discriminate|].
  destruct (split sep r); discriminate.
Qed.

(** Splitting distributes over a separator between two strings. *)
Lemma split_app (sep : ascii) (a b : string) :
  split sep (a ++ String sep b) = (split sep a ++ split sep b)%list.
Proof.
  induction a as [|c r IH]; simpl.
  - rewrite Ascii.eqb_refl. reflexivity.
  - destruct (Ascii.eqb c sep); rewrite IH.
    + reflexivity.
    + pose proof (split_not_nil sep r) as Hne.
      destruct (split sep r); [contradiction|reflexivity].
Qed.

Lemma split_absent (sep : ascii) (s : string) :
  occurs sep s = false -> split sep s = [s].
Proof.
  induction s as [|c r IH]; simpl; intros H; [reflexivity|].
  apply orb_false_iff in H. destruct H as [Hc Hr].
  rewrite Hc, (IH Hr). reflexivity.
Qed.

Lemma hexDigit_isHex (n : N) : isHexDigit (hexDigit n) = true.
Proof.
  destruct n as [|p]; [reflexivity|].
  do 4 (destruct p as [p|p|]; try reflexivity).
Qed.

Lemma toHex_length (bs : list byte) :
  String.length (toHex bs) = 2 * List.length bs.
Proof. induction bs; simpl; lia. Qed.

Lemma toHex_allHex (bs : list byte) : allHex (toHex bs) = true.
Proof.
  induction bs as [|b r IH]; [reflexivity|].
  cbn [toHex allHex]. rewrite !hexDigit_isHex, IH. reflexivity.
Qed.

Lemma isHexDigit_not_colon (c : ascii) :
  isHexDigit c = true -> Ascii.eqb c colon = false.
Proof.
  intros H. destruct (Ascii.eqb c colon) eqn:E; [|reflexivity].
  apply Ascii.eqb_eq in E. subst c. discriminate H.
Qed.

Lemma allHex_no_colon (s : string) :
  allHex s = true -> occurs colon s = false.
Proof.
  induction s as [|c r IH]; simpl; intros H; [reflexivity|].
  apply andb_true_iff in H. destruct H as [Hc Hr].
  rewrite (isHexDigit_not_colon c Hc), (IH Hr). reflexivity.
Qed.

Lemma digits_numeral (d : uint) (acc : Z) :
  leadingDigits 10 (NilEmpty.string_of_uint d) acc true = Some (numeralValue d acc).
Proof.
  revert acc. induction d; intros acc; simpl; try reflexivity; apply IHd.
Qed.

Lemma numeralValue_acc (d : uint) (acc : positive) :
  numeralValue d (Zpos acc) = Zpos (Pos.of_uint_acc d acc).
Proof.
  revert acc. induction d; intros acc; cbn [numeralValue Pos.of_uint_acc];
    try reflexivity;
    rewrite <- IHd; f_equal; lia.
Qed.

Lemma numeralValue_of_uint (d : uint) :
  numeralValue d 0 = Z.of_N (Pos.of_uint d).
Proof.
  induction d; cbn [numeralValue Pos.of_uint Z.of_N]; try reflexivity;
    try exact IHd;
    cbn [Z.mul Z.add]; apply numeralValue_acc.
Qed.

(** The numeral printed for a natural number is [0] or starts with a digit
    other than zero. *)
Lemma to_uint_canonical (n : N) (d' : uint) :
  N.to_uint n <> Nil /\ (N.to_uint n = D0 d' -> d' = Nil).
Proof.
  pose proof (DecimalN.Unsigned.to_of (N.to_uint n)) as H.
  rewrite DecimalN.Unsigned.of_to in H.
  split.
  - intros E. rewrite E in H. discriminate H.
  - intros E. rewrite E in H. unfold unorm in H. rewrite nzhead_D0 in H.
    destruct (nzhead d') eqn:Ez; try (inversion H; reflexivity);
      exfalso; apply (nzhead_nonzero d' d'); rewrite Ez; symmetry; exact H.
Qed.

Lemma trimStart_kept (c : ascii) (r : string) :
  afterWhiteSpace (String c r) = None -> trimStart (String c r) = String c r.
Proof.
  intros H. unfold trimStart. cbn [String.length trimStartWithin].
  rewrite H. reflexivity.
Qed.

Lemma nearestDouble_exact (m : Z) :
  (m < 9007199254740992)%Z -> nearestDouble m = Some m.
Proof.
  intros H. unfold nearestDouble.
  destruct (Z.ltb_spec m 9007199254740992); [reflexivity|lia].
Qed.

(** [parseInt] reads a decimal numeral as the double nearest to it. *)
Lemma parseInt_numeral (n : N) :
  parseInt (decimal n)
  = match nearestDouble (Z.of_N n) with
    | Some v => Int v
    | None => Infinity false
    end.
Proof.
  unfold decimal.
  pose proof (DecimalN.Unsigned.of_to n) as Hn.
  unfold N.of_uint in Hn.
  pose proof (numeralValue_of_uint (N.to_uint n)) as Hv.
  rewrite Hn in Hv. rewrite <- Hv. clear Hn Hv.
  destruct (N.to_uint n) as [|d|d|d|d|d|d|d|d|d|d] eqn:E;
    try (unfold parseInt; cbn [NilEmpty.string_of_uint];
         rewrite trimStart_kept
           by (destruct (NilEmpty.string_of_uint d) as [|c2 [|c3 r3]];
               reflexivity);
         cbv iota beta; unfold leadingDigits; fold leadingDigits;
         match goal with
         | |- context [digitValue 10 ?c] =>
             let v := eval vm_compute in (digitValue 10 c) in
             change (digitValue 10 c) with v
         end;
         cbv iota beta; rewrite digits_numeral;
         cbn [numeralValue];
         destruct (nearestDouble _) as [v|]; [destruct v|]; reflexivity).
  - destruct (to_uint_canonical n Nil) as [Hne _]. contradiction.
  - destruct (to_uint_canonical n d) as [_ Hz]. rewrite (Hz E). reflexivity.
Qed.

(** Below 2^53 [parseInt] reads a decimal numeral back exactly. *)
Lemma parseInt_decimal (n : N) :
  (n < 9007199254740992)%N -> parseInt (decimal n) = Int (Z.of_N n).
Proof.
  intros H. rewrite parseInt_numeral, nearestDouble_exact by lia. reflexivity.
Qed.

(** Below 2^53 a natural number prints as its decimal numeral. *)
Lemma toString_of_N (n : N) :
  (n < 9007199254740992)%N -> toString (Int (Z.of_N n)) = decimal n.
Proof.
  intros H. destruct n as [|p]; [reflexivity|].
  cbn [Z.of_N toString]. unfold printMagnitude.
  rewrite nearestDouble_exact by lia.
  unfold printDouble.
  destruct (Z.ltb_spec (Zpos p) 9007199254740992); [reflexivity|lia].
Qed.

End JsFacts.

(** ** The DID registry *)

Module RegistryFacts.
Import Js JsFacts Registry.

Ltac run :=
  unfold bind, await, ret, throw, try_catch, set_walletClient,
    get_walletClient, call_createAction, insertOne, findOne, console_error;
  cbn [fst snd walletClient did_lookups db_fault requests console_errors].

Lemma split_did (t h : string) :
  occurs colon t = false -> occurs colon h = false ->
  split colon ("did:bsv:" ++ t ++ ":" ++ h) = ["did"; "bsv"; t; h].
Proof.
  intros Ht Hh.
  change ("did:bsv:" ++ t ++ ":" ++ h)
    with ("did" ++ String colon ("bsv" ++ String colon (t ++ String colon h))).
  rewrite !split_app, (split_absent colon t Ht), (split_absent colon h Hh).
  reflexivity.
Qed.

Lemma did_last_segment (t h : string) :
  occurs colon h = false ->
  last (split colon ("did:bsv:" ++ t ++ ":" ++ h)) "" = h.
Proof.
  intros Hh.
  change ("did:bsv:" ++ t ++ ":" ++ h)
    with ("did" ++ String colon ("bsv" ++ String colon (t ++ String colon h))).
  rewrite !split_app, (split_absent colon h Hh), !app_assoc.
  apply last_last.
Qed.

Lemma find_fresh (serial : string) (r : LookupRecord) (rs : list LookupRecord) :
  (forall r', In r' rs -> serialNumber r' <> serial) ->
  serialNumber r = serial ->
  find (fun x => String.eqb (serialNumber x) serial) (rs ++ [r]) = Some r.
Proof.
  intros Hfresh Hr. induction rs as [|x rest IH]; simpl.
  - rewrite Hr, String.eqb_refl. reflexivity.
  - destruct (String.eqb (serialNumber x) serial) eqn:E.
    + apply String.eqb_eq in E. exfalso. apply (Hfresh x); [now left|exact E].
    + apply IH. intros r' Hin. apply Hfresh. now right.
Qed.

Lemma digest32_length (message : string) :
  List.length (Sample.digest32 message) = 32.
Proof.
  unfold Sample.digest32.
  rewrite length_firstn, length_app, repeat_length. lia.
Qed.

(** The identifier and the six lists of the document [createDID] builds,
    whatever the input document holds. *)
Lemma finalDidDocument_members (P : Platform) (opts : CreateOptions)
    (d : string) :
  let final := finalDidDocument P opts d in
  get "id" final = Some (JStr d)
  /\ get "keyAgreement" final = Some (JArr [])
  /\ get "capabilityDelegation" final = Some (JArr [])
  /\ get "capabilityInvocation" final = Some (JArr [])
  /\ (truthy (publicKeyJWK opts) = false ->
      get "verificationMethod" final = Some (JArr [])
      /\ get "authentication" final = Some (JArr [])
      /\ get "assertionMethod" final = Some (JArr []))
  /\ (truthy (publicKeyJWK opts) = true ->
      exists id jwk,
        publicKeyJWK opts = Some jwk
        /\ id = (if truthy_str (keyId opts) then show (keyId opts)
                 else d ++ "#key-1")
        /\ get "verificationMethod" final
             = Some (JArr [verificationMethod P id d jwk])
        /\ get "authentication" final = Some (JArr [JStr id])
        /\ get "assertionMethod" final = Some (JArr [JStr id])).
Proof.
  unfold finalDidDocument.
  destruct (publicKeyJWK opts) as [jwk|] eqn:Ej.
  - destruct (truthy (Some jwk)) eqn:Et.
    + destruct (keyId opts) as [id|] eqn:Ek;
        [destruct (truthy_str (Some id)) eqn:Es|];
        cbv zeta; rewrite !get_set; cbn [String.eqb Ascii.eqb Bool.eqb];
        repeat split; try discriminate;
        intros _; do 2 eexists; repeat split; reflexivity.
    + cbv zeta; rewrite !get_set; cbn [String.eqb Ascii.eqb Bool.eqb].
      repeat split; discriminate.
  - cbv zeta; rewrite !get_set; cbn [String.eqb Ascii.eqb Bool.eqb].
    repeat split; discriminate.
Qed.

Section Create.

Variable P : Platform.
Variable cfg : Config.
Variable opts : CreateOptions.
Variable o : CreateOracle.
Variable client : WalletClient.
Variable token : PushDropLock.
Variable anchor : CreateActionResult.

(** The wallet collaborators succeed: a wallet client is built, it locks
    the token and it creates the anchoring transaction. *)
Hypothesis client_ok : newClient o = Ok client.
Hypothesis lock_ok :
  lock client (lockArgs P (opt_didDocument opts) o) = Ok token.
Hypothesis action_ok :
  createAction client (createActionArgs P (opt_didDocument opts) o token)
  = Ok anchor.

(** What a call of [createDID] then does, whatever the database does. *)
Lemma createDID_run (w : World) :
  exists w',
    createDID P cfg opts o w =
      (Ok {| did := didOf cfg (serialNumberHex P (opt_didDocument opts) o);
             car := anchor;
             res_didDocument :=
               finalDidDocument P opts
                 (didOf cfg (serialNumberHex P (opt_didDocument opts) o)) |},
       w')
    /\ walletClient w' = Some client
    /\ db_fault w' = db_fault w
    /\ requests w' =
         (requests w
          ++ [createActionArgs P (opt_didDocument opts) o token])%list
    /\ did_lookups w' =
         (if db cfg then
            match db_fault w with
            | None =>
                did_lookups w
                ++ [lookupData P cfg (opt_didDocument opts) o anchor
                      (finalDidDocument P opts
                         (didOf cfg
                            (serialNumberHex P (opt_didDocument opts) o)))]
            | Some _ => did_lookups w
            end
          else did_lookups w)%list
    /\ console_errors w' =
         (if db cfg then
            match db_fault w with
            | None => console_errors w
            | Some e =>
                console_errors w ++
                [("[BsvOverlayRegistry] Error storing DID lookup in MongoDB:",
                  e)]
            end
          else console_errors w)%list.
Proof.
  unfold createDID. run. rewrite client_ok. run.
  rewrite lock_ok. run. rewrite action_ok. run.
  destruct (db cfg); run; [destruct (db_fault w) as [e|]; run|];
    eexists; repeat split; reflexivity.
Qed.

(** C5. [createDID] takes the serial number to be the SHA-256 digest of the
    serialised document extended with the timestamp and the random nonce,
    and returns the identifier [did:bsv:<topic>:<hex>] whose last segment is
    the 64 hexadecimal digits of that digest. *)
Theorem createDID_serial_number (w : World) :
  (forall message, List.length (sha256 P message) = 32) ->
  let digest :=
    sha256 P
      (stringify P
         (JObj (set "nonce" (JStr (nonce o))
                  (set "timestamp" (JNum (timestamp o))
                     (opt_didDocument opts))))) in
  exists r w',
    createDID P cfg opts o w = (Ok r, w')
    /\ did r = "did:bsv:" ++ topic cfg ++ ":" ++ toHex digest
    /\ String.length (toHex digest) = 64
    /\ allHex (toHex digest) = true
    /\ last (split colon (did r)) "" = toHex digest.
Proof.
  intros Hlen digest.
  destruct (createDID_run w) as (w' & Hrun & _).
  eexists; exists w'. split; [exact Hrun|].
  cbn [did]. unfold didOf, serialNumberHex, serialNumberBytes, uniqueData.
  fold digest.
  repeat split.
  - rewrite toHex_length. unfold digest. rewrite Hlen. reflexivity.
  - apply toHex_allHex.
  - apply did_last_segment, allHex_no_colon, toHex_allHex.
Qed.

(** C6. When the write to the lookup index fails, [createDID] still returns
    the identifier, the wallet's result and the document; the failure is
    written to the console, the index is left as it was, and the anchoring
    request is the only one the wallet has received. *)
Theorem createDID_index_failure_swallowed (w : World) (dbError : string) :
  db cfg = true ->
  db_fault w = Some dbError ->
  exists w',
    createDID P cfg opts o w =
      (Ok {| did := didOf cfg (serialNumberHex P (opt_didDocument opts) o);
             car := anchor;
             res_didDocument :=
               finalDidDocument P opts
                 (didOf cfg (serialNumberHex P (opt_didDocument opts) o)) |},
       w')
    /\ console_errors w' =
         (console_errors w ++
          [("[BsvOverlayRegistry] Error storing DID lookup in MongoDB:",
            dbError)])%list
    /\ did_lookups w' = did_lookups w
    /\ requests w' =
         (requests w
          ++ [createActionArgs P (opt_didDocument opts) o token])%list.
Proof.
  intros Hdb Hfault.
  destruct (createDID_run w) as (w' & Hrun & _ & _ & Hreq & Hidx & Hlog).
  rewrite Hdb, Hfault in Hidx, Hlog.
  exists w'. repeat split; assumption.
Qed.

(** C10. Whatever the input document lists under them, the document
    [createDID] returns has empty [keyAgreement], [capabilityDelegation] and
    [capabilityInvocation], and its [verificationMethod], [authentication]
    and [assertionMethod] each hold exactly one entry when a public key was
    supplied and none otherwise. *)
Theorem createDID_resets_lists (w : World) :
  exists r w',
    createDID P cfg opts o w = (Ok r, w')
    /\ get "keyAgreement" (res_didDocument r) = Some (JArr [])
    /\ get "capabilityDelegation" (res_didDocument r) = Some (JArr [])
    /\ get "capabilityInvocation" (res_didDocument r) = Some (JArr [])
    /\ (truthy (publicKeyJWK opts) = false ->
        get "verificationMethod" (res_didDocument r) = Some (JArr [])
        /\ get "authentication" (res_didDocument r) = Some (JArr [])
        /\ get "assertionMethod" (res_didDocument r) = Some (JArr []))
    /\ (truthy (publicKeyJWK opts) = true ->
        exists method key,
          get "verificationMethod" (res_didDocument r)
            = Some (JArr [method])
          /\ get "authentication" (res_didDocument r)
               = Some (JArr [JStr key])
          /\ get "assertionMethod" (res_didDocument r)
               = Some (JArr [JStr key])).
Proof.
  destruct (createDID_run w) as (w' & Hrun & _).
  eexists; exists w'. split; [exact Hrun|].
  cbn [res_didDocument].
  destruct (finalDidDocument_members P opts
              (didOf cfg (serialNumberHex P (opt_didDocument opts) o)))
    as (_ & Hka & Hcd & Hci & Hnone & Hone).
  repeat split; try assumption; try (apply Hnone; assumption).
  intros Hjwk. destruct (Hone Hjwk) as (id & jwk & _ & _ & Hvm & Hau & Has).
  eauto.
Qed.

(** C3, amended. When the topic holds no colon and the index holds no
    earlier record under the new serial number, [resolveDID] on the
    identifier that [createDID] has just returned, with the index written,
    returns the document whose [id] is that identifier and whose
    [verificationMethod] has exactly one entry if a public key was
    supplied. *)
Theorem resolve_after_create (w : World) :
  db cfg = true ->
  db_fault w = None ->
  occurs colon (topic cfg) = false ->
  (forall r, In r (did_lookups w) ->
     serialNumber r <> serialNumberHex P (opt_didDocument opts) o) ->
  exists r w' document,
    createDID P cfg opts o w = (Ok r, w')
    /\ resolveDID P cfg (did r) (car r) w' = (Ok (Some (JObj document)), w')
    /\ get "id" document = Some (JStr (did r))
    /\ (truthy (publicKeyJWK opts) = true ->
        exists method,
          get "verificationMethod" document = Some (JArr [method])).
Proof.
  intros Hdb Hup Htopic Hfresh.
  destruct (createDID_run w) as (w' & Hrun & _ & Hfault & _ & Hidx & _).
  rewrite Hdb, Hup in Hidx. rewrite Hup in Hfault.
  eexists; exists w'; eexists. split; [exact Hrun|].
  cbn [did car].
  destruct (finalDidDocument_members P opts
              (didOf cfg (serialNumberHex P (opt_didDocument opts) o)))
    as (Hid & _ & _ & _ & _ & Hone).
  repeat split.
  - unfold resolveDID, didOf. run.
    rewrite split_did;
      [|exact Htopic|apply allHex_no_colon, toHex_allHex].
    cbn [List.length nth Nat.eqb String.eqb Ascii.eqb Bool.eqb andb negb].
    rewrite Hdb, Hfault, Hidx.
    rewrite (find_fresh (serialNumberHex P (opt_didDocument opts) o)
               (lookupData P cfg (opt_didDocument opts) o anchor
                  (finalDidDocument P opts
                     (didOf cfg
                        (serialNumberHex P (opt_didDocument opts) o))))
               (did_lookups w) Hfresh eq_refl).
    reflexivity.
  - exact Hid.
  - intros Hjwk. destruct (Hone Hjwk) as (id & jwk & _ & _ & Hvm & _).
    eauto.
Qed.

End Create.

Section Parse.

Variable P : Platform.
Variable cfg : Config.

(** C4. A string that does not split into four segments makes [resolveDID]
    fail with the format error (wrapped as every failure of [resolveDID]
    is), and one that does not split into five makes [updateDID] fail with
    it; neither reaches the index nor the wallet. *)
Theorem wrong_segment_count_is_format_error (did : string)
    (car : CreateActionResult) (newDidDocument : Obj) (w : World) :
  (List.length (split colon did) <> 4 ->
   exists w',
     resolveDID P cfg did car w =
       (Err "Failed to resolve DID: Invalid DID format", w')
     /\ requests w' = requests w /\ did_lookups w' = did_lookups w)
  /\
  (List.length (split colon did) <> 5 ->
   exists w',
     updateDID P cfg did newDidDocument w = (Err "Invalid DID format", w')
     /\ requests w' = requests w /\ did_lookups w' = did_lookups w).
Proof.
  split; intros Hlen.
  - unfold resolveDID. run.
    destruct (Nat.eqb (List.length (split colon did)) 4) eqn:E;
      [apply Nat.eqb_eq in E; contradiction|].
    cbn [andb negb]. eexists. repeat split; reflexivity.
  - unfold updateDID. run.
    destruct (Nat.eqb (List.length (split colon did)) 5) eqn:E;
      [apply Nat.eqb_eq in E; contradiction|].
    cbn [negb]. eexists. repeat split; reflexivity.
Qed.

(** C7. On a string of five segments [updateDID] builds a request with one
    input, whose outpoint is the fourth segment and the parsed fifth printed
    as a number (the fifth itself when it is the decimal numeral of a
    natural number below 2^53, which a double holds exactly), and two
    outputs: the
    tagged-data script carrying the new document with no value, and the
    ownership script with one satoshi. When the wallet accepts the request
    the call returns [did:bsv:<topic>:<txid>:1], and it returns nothing else
    on success. *)
Theorem updateDID_request_and_result (did : string) (newDidDocument : Obj)
    (w : World) :
  let previousTxid := nth 3 (split colon did) "" in
  let previousVout := nth 4 (split colon did) "" in
  let args :=
    updateActionArgs P cfg previousTxid (parseInt previousVout)
      newDidDocument in
  List.length (split colon did) = 5 ->
  inputs args =
    [ {| outpoint := previousTxid ++ ":" ++ toString (parseInt previousVout);
         inputDescription := "Previous DID output" |} ]
  /\ (forall n : N,
        (n < 9007199254740992)%N ->
        previousVout = decimal n ->
        map outpoint (inputs args) = [previousTxid ++ ":" ++ previousVout])
  /\ (exists document fresh,
        outputs args = [document; fresh]
        /\ lockingScript document =
             scriptHex P
               [ OpCode 0; OpCode 106;
                 Bin (toArray_utf8 (topic cfg));
                 Bin (toArray_utf8 "UPDATE");
                 Bin (toArray_utf8 previousTxid);
                 Bin (toArray_utf8 (toString (parseInt previousVout)));
                 Bin (toArray_utf8 (stringify P (JObj newDidDocument))) ]
        /\ satoshis document = 0%Z
        /\ lockingScript fresh
             = "76a914" ++ "0000000000000000000000000000000000000000" ++ "88ac"
        /\ satoshis fresh = 1%Z)
  /\ (forall wallet answer,
        walletClient w = Some wallet ->
        createAction wallet args = Ok answer ->
        exists w',
          updateDID P cfg did newDidDocument w =
            (Ok {| upd_did :=
                     "did:bsv:" ++ topic cfg ++ ":" ++ show (txid answer)
                     ++ ":1";
                   upd_txid := txid answer |}, w')
          /\ requests w' = (requests w ++ [args])%list)
  /\ (forall r w',
        updateDID P cfg did newDidDocument w = (Ok r, w') ->
        exists wallet answer,
          walletClient w = Some wallet
          /\ createAction wallet args = Ok answer
          /\ requests w' = (requests w ++ [args])%list
          /\ upd_did r =
               "did:bsv:" ++ topic cfg ++ ":" ++ show (txid answer) ++ ":1").
Proof.
  intros previousTxid previousVout args Hlen.
  split; [reflexivity|]. split; [|split; [|split]].
  - intros n Hb Hn. cbn [args updateActionArgs inputs map outpoint].
    rewrite Hn, (parseInt_decimal n Hb), (toString_of_N n Hb). reflexivity.
  - do 2 eexists. repeat split.
  - intros wallet answer Hwallet Haction.
    unfold updateDID. run. rewrite Hlen. cbn [Nat.eqb negb].
    rewrite Hwallet. fold previousTxid previousVout args. rewrite Haction.
    eexists. split; reflexivity.
  - intros r w'. unfold updateDID. run. rewrite Hlen. cbn [Nat.eqb negb].
    fold previousTxid previousVout args.
    destruct (walletClient w) as [wallet|]; [|discriminate].
    destruct (createAction wallet args) as [answer|e] eqn:Haction;
      [|discriminate].
    intros H. injection H as <- <-.
    exists wallet, answer. repeat split. exact Haction.
Qed.

End Parse.

(** Beyond 2^53 the outpoint that [updateDID] names is the fifth segment
    as a double prints it, and no numeral gives the text [NaN]. *)
Example updateDID_outpoint_is_printed_double :
  map outpoint
    (inputs (updateActionArgs Sample.sdk Sample.registry "cafe"
               (parseInt "9007199254740993") []))
  = ["cafe:9007199254740992"]
  /\ map outpoint
       (inputs (updateActionArgs Sample.sdk Sample.registry "cafe"
                  (parseInt "1000000000000000000000") []))
     = ["cafe:1e+21"]
  /\ map outpoint
       (inputs (updateActionArgs Sample.sdk Sample.registry "cafe"
                  (parseInt "zero") []))
     = ["cafe:NaN"].
Proof. repeat split; vm_compute; reflexivity. Qed.

Section Overlay.

Variable P : Platform.
Variable cfg : Config.
Variable w : World.
Variable did : string.
Variable car : CreateActionResult.
Variable t serial : string.
Variable r : LookupRecord.
Variable n : Z.

(** The call reaches the overlay query: the identifier parses, the index
    answers with a record that has an outpoint and no document, and a
    provider is configured. *)
Hypothesis did_parts : split colon did = ["did"; "bsv"; t; serial].
Hypothesis db_given : db cfg = true.
Hypothesis db_up : db_fault w = None.
Hypothesis indexed :
  find (fun x => String.eqb (serialNumber x) serial) (did_lookups w) = Some r.
Hypothesis no_document : truthy (didDocument r) = false.
Hypothesis has_txid : truthy_str (rec_txid r) = true.
Hypothesis has_vout : vout r = Some n.
Hypothesis provider : String.eqb (overlayProvider cfg) "" = false.

Lemma resolveDID_via_overlay :
  resolveDID P cfg did car w =
  try_catch
    (found <- try_catch
       (queryOverlay P (overlayProvider cfg ++ "/lookup") serial
          (show (rec_txid r) ++ "." ++ toString (Int n)))
       (fun error =>
          console_error "[BsvOverlayRegistry] Error querying LARS:" error ;;
          throw error) ;;
     match found with
     | Some d => ret (Some d)
     | None => ret None
     end)
    (fun error =>
       console_error "[BsvOverlayRegistry] Error resolving DID:" error ;;
       throw ("Failed to resolve DID: " ++ error)) w.
Proof.
  unfold resolveDID. rewrite did_parts.
  cbn [List.length nth Nat.eqb String.eqb Ascii.eqb Bool.eqb andb negb].
  rewrite db_given. unfold try_catch at 1 3. unfold bind at 1 4.
  unfold findOne at 1. rewrite db_up, indexed.
  rewrite no_document, has_vout, has_txid, provider. reflexivity.
Qed.

(** C9, amended. Once the overlay query is reached, [resolveDID] fails with
    the provider error when the response has a non-success status, and fails
    when the request fails or the body of the response cannot be read; when
    the body was read but its first field is text that does not parse, the
    failure is written to the console and [resolveDID] returns [null], as it
    does when the body lists no output. *)
Theorem resolveDID_overlay_outcomes :
  let url := overlayProvider cfg ++ "/lookup" in
  let request :=
    {| service := "ls_did";
       query_serialNumber := serial;
       query_outpoint := show (rec_txid r) ++ "." ++ toString (Int n) |} in
  (forall response,
     fetch P url request = Ok response -> ok response = false ->
     fst (resolveDID P cfg did car w) =
       Err ("Failed to resolve DID: Overlay provider error: "
            ++ toString (Int (status response))))
  /\ (forall e,
        fetch P url request = Err e ->
        fst (resolveDID P cfg did car w) = Err ("Failed to resolve DID: " ++ e))
  /\ (forall response e,
        fetch P url request = Ok response -> ok response = true ->
        json response = Err e ->
        fst (resolveDID P cfg did car w) = Err ("Failed to resolve DID: " ++ e))
  /\ (forall response data output others text more e,
        fetch P url request = Ok response -> ok response = true ->
        json response = Ok data ->
        answer_type data = Some "output-list" ->
        answer_outputs data = Some (output :: others) ->
        output_fields output = Some (JStr text :: more) ->
        parse P text = Err e ->
        fst (resolveDID P cfg did car w) = Ok None
        /\ console_errors (snd (resolveDID P cfg did car w)) =
             (console_errors w
              ++ [("[BsvOverlayRegistry] Error parsing DID document:", e)])%list)
  /\ (forall response data,
        fetch P url request = Ok response -> ok response = true ->
        json response = Ok data ->
        answer_outputs data = None \/ answer_outputs data = Some [] ->
        fst (resolveDID P cfg did car w) = Ok None).
Proof.
  intros url request. rewrite resolveDID_via_overlay. fold url.
  unfold queryOverlay. fold request.
  split; [|split; [|split; [|split]]].
  - intros response Hf Hok. run. rewrite Hf, Hok. reflexivity.
  - intros e Hf. run. rewrite Hf. reflexivity.
  - intros response e Hf Hok Hj. run. rewrite Hf, Hok. cbn [negb].
    rewrite Hj. reflexivity.
  - intros response data output others text more e Hf Hok Hj Ht Ho Hfs Hp.
    run. rewrite Hf, Hok. cbn [negb]. rewrite Hj, Ht, Ho.
    cbn [String.eqb Ascii.eqb Bool.eqb]. rewrite Hfs, Hp. split; reflexivity.
  - intros response data Hf Hok Hj Hnone.
    run. rewrite Hf, Hok. cbn [negb]. rewrite Hj.
    destruct (answer_type data); destruct Hnone as [Hn|Hn]; try rewrite Hn;
      reflexivity.
Qed.

End Overlay.

(** C9, as stated, fails: an answer whose first field is text that is not a
    document does not make [resolveDID] fail; the parse error goes to the
    console and the call returns [null]. *)
Lemma resolveDID_undecodable_field_returns_null :
  parse (Sample.platform (Sample.answering (JStr "{not json"))) "{not json"
    = Err "Unexpected token in JSON: {not json"
  /\ resolveDID (Sample.platform (Sample.answering (JStr "{not json")))
       (Sample.config "tm_did") "did:bsv:tm_did:abcd" Sample.anchor
       Sample.hintWorld
     = (Ok None,
        {| walletClient := None;
           did_lookups := [Sample.hint];
           db_fault := None;
           requests := [];
           console_errors :=
             [("[BsvOverlayRegistry] Error parsing DID document:",
               "Unexpected token in JSON: {not json")] |}).
Proof. split; reflexivity. Qed.

(** C3, as stated, fails: under a topic that holds a colon the identifier
    [createDID] returns splits into five segments, and [resolveDID] rejects
    it although the index was written. *)
Lemma resolve_after_create_fails_for_colon_topic :
  exists r w',
    createDID (Sample.platform (Sample.failing 503))
      (Sample.config "registry:main") Sample.options Sample.oracle
      Sample.emptyWorld = (Ok r, w')
    /\ List.length (did_lookups w') = 1
    /\ List.length (split colon (did r)) = 5
    /\ fst (resolveDID (Sample.platform (Sample.failing 503))
              (Sample.config "registry:main") (did r) (car r) w')
       = Err "Failed to resolve DID: Invalid DID format".
Proof. do 2 eexists. repeat split; reflexivity. Qed.

Lemma resolve_after_create_witness :
  exists r w' document,
    createDID (Sample.platform (Sample.failing 503)) (Sample.config "tm_did")
      Sample.options Sample.oracle Sample.emptyWorld = (Ok r, w')
    /\ resolveDID (Sample.platform (Sample.failing 503))
         (Sample.config "tm_did") (did r) (car r) w'
       = (Ok (Some (JObj document)), w')
    /\ get "id" document = Some (JStr (did r))
    /\ (truthy (publicKeyJWK Sample.options) = true ->
        exists method,
          get "verificationMethod" document = Some (JArr [method])).
Proof.
  exact (resolve_after_create (Sample.platform (Sample.failing 503))
           (Sample.config "tm_did") Sample.options Sample.oracle
           Sample.client Sample.token Sample.anchor eq_refl eq_refl eq_refl
           Sample.emptyWorld eq_refl eq_refl eq_refl
           (fun r (H : In r []) => match H with end)).
Defined.

Lemma createDID_serial_number_witness :
  exists r w',
    createDID (Sample.platform (Sample.failing 503)) (Sample.config "tm_did")
      Sample.options Sample.oracle Sample.emptyWorld = (Ok r, w')
    /\ String.length (last (split colon (did r)) "") = 64.
Proof.
  destruct (createDID_serial_number (Sample.platform (Sample.failing 503))
              (Sample.config "tm_did") Sample.options Sample.oracle
              Sample.client Sample.token Sample.anchor eq_refl eq_refl eq_refl
              Sample.emptyWorld digest32_length)
    as (r & w' & Hrun & _ & Hlen & _ & Hlast).
  exists r, w'. split; [exact Hrun|]. rewrite Hlast. exact Hlen.
Defined.

Lemma createDID_index_failure_swallowed_witness :
  exists w',
    fst (createDID (Sample.platform (Sample.failing 503))
           (Sample.config "tm_did") Sample.options Sample.oracle
           Sample.downWorld)
      = fst (createDID (Sample.platform (Sample.failing 503))
               (Sample.config "tm_did") Sample.options Sample.oracle
               Sample.emptyWorld)
    /\ snd (createDID (Sample.platform (Sample.failing 503))
              (Sample.config "tm_did") Sample.options Sample.oracle
              Sample.downWorld) = w'
    /\ console_errors w' =
         [("[BsvOverlayRegistry] Error storing DID lookup in MongoDB:",
           "connection refused")]
    /\ did_lookups w' = []
    /\ requests w' =
         [createActionArgs (Sample.platform (Sample.failing 503))
            (opt_didDocument Sample.options) Sample.oracle Sample.token]
    /\ lock_signature Sample.token = [x30; x45].
Proof.
  destruct (createDID_index_failure_swallowed
              (Sample.platform (Sample.failing 503)) (Sample.config "tm_did")
              Sample.options Sample.oracle Sample.client Sample.token
              Sample.anchor
              eq_refl eq_refl eq_refl Sample.downWorld "connection refused"
              eq_refl eq_refl)
    as (w' & Hrun & Hlog & Hidx & Hreq).
  exists w'. rewrite Hrun. repeat split; assumption.
Defined.

Lemma createDID_resets_lists_witness :
  exists r w',
    createDID (Sample.platform (Sample.failing 503)) (Sample.config "tm_did")
      Sample.options Sample.oracle Sample.emptyWorld = (Ok r, w')
    /\ get "keyAgreement" (opt_didDocument Sample.options)
       = Some (JArr [JStr "stale"])
    /\ get "keyAgreement" (res_didDocument r) = Some (JArr [])
    /\ exists method,
         get "verificationMethod" (res_didDocument r) = Some (JArr [method]).
Proof.
  destruct (createDID_resets_lists (Sample.platform (Sample.failing 503))
              (Sample.config "tm_did") Sample.options Sample.oracle
              Sample.client Sample.token Sample.anchor eq_refl eq_refl eq_refl
              Sample.emptyWorld)
    as (r & w' & Hrun & Hka & _ & _ & _ & Hone).
  destruct (Hone eq_refl) as (method & key & Hvm & _).
  exists r, w'. repeat split; try assumption. exists method. exact Hvm.
Defined.

Lemma wrong_segment_count_witness :
  (exists w',
     resolveDID (Sample.platform (Sample.failing 503)) (Sample.config "tm_did")
       "did:bsv:tm_did" Sample.anchor Sample.readyWorld
     = (Err "Failed to resolve DID: Invalid DID format", w'))
  /\ (exists w',
        updateDID (Sample.platform (Sample.failing 503))
          (Sample.config "tm_did") "did:bsv:tm_did:abcd" [] Sample.readyWorld
        = (Err "Invalid DID format", w')).
Proof.
  split.
  - destruct (proj1 (wrong_segment_count_is_format_error
                       (Sample.platform (Sample.failing 503))
                       (Sample.config "tm_did") "did:bsv:tm_did"
                       Sample.anchor [] Sample.readyWorld))
      as (w' & Hrun & _); [vm_compute; lia|].
    exists w'. exact Hrun.
  - destruct (proj2 (wrong_segment_count_is_format_error
                       (Sample.platform (Sample.failing 503))
                       (Sample.config "tm_did") "did:bsv:tm_did:abcd"
                       Sample.anchor [] Sample.readyWorld))
      as (w' & Hrun & _); [vm_compute; lia|].
    exists w'. exact Hrun.
Defined.

Lemma updateDID_request_and_result_witness :
  exists w',
    updateDID (Sample.platform (Sample.failing 503)) (Sample.config "tm_did")
      "did:bsv:tm_did:cafe:0" [("id", JStr "did:bsv:tm_did:cafe:0")]
      Sample.readyWorld
    = (Ok {| upd_did := "did:bsv:tm_did:beef:1"; upd_txid := Some "beef" |},
       w')
    /\ map outpoint (flat_map inputs (requests w')) = ["cafe:0"].
Proof.
  destruct (updateDID_request_and_result
              (Sample.platform (Sample.failing 503)) (Sample.config "tm_did")
              "did:bsv:tm_did:cafe:0" [("id", JStr "did:bsv:tm_did:cafe:0")]
              Sample.readyWorld eq_refl)
    as (_ & _ & _ & Haccept & _).
  destruct (Haccept Sample.client Sample.anchor eq_refl eq_refl)
    as (w' & Hrun & Hreq).
  exists w'. split; [exact Hrun|]. rewrite Hreq. reflexivity.
Defined.

Lemma resolveDID_overlay_outcomes_witness :
  fst (resolveDID (Sample.platform (Sample.failing 503))
         (Sample.config "tm_did") "did:bsv:tm_did:abcd" Sample.anchor
         Sample.hintWorld)
  = Err "Failed to resolve DID: Overlay provider error: 503".
Proof.
  destruct (resolveDID_overlay_outcomes
              (Sample.platform (Sample.failing 503)) (Sample.config "tm_did")
              Sample.hintWorld "did:bsv:tm_did:abcd" Sample.anchor
              "tm_did" "abcd" Sample.hint 0%Z
              eq_refl eq_refl eq_refl eq_refl eq_refl eq_refl eq_refl eq_refl)
    as (Hstatus & _).
  exact (Hstatus _ eq_refl eq_refl).
Defined.

End RegistryFacts.

(** ** The certificate issuer *)

Module CertifierFacts.
Import Certifier.

(** Validation passes exactly when the four members are present (and the two
    strings are not empty). *)
Lemma check_passes (b : Body) :
  certifierSignCheckArgs b = Ok tt ->
  exists cn ty fs kr,
    clientNonce b = Some cn /\ type b = Some ty
    /\ fields b = Some fs /\ masterKeyring b = Some kr.
Proof.
  unfold certifierSignCheckArgs.
  destruct (clientNonce b) as [cn|]; cbn [Js.truthy_str negb];
    [|discriminate].
  destruct (negb (negb (cn =? ""))); [discriminate|].
  destruct (type b) as [ty|]; cbn [Js.truthy_str negb]; [|discriminate].
  destruct (negb (negb (ty =? ""))); [discriminate|].
  destruct (fields b) as [fs|]; [|discriminate].
  destruct (masterKeyring b) as [kr|]; [|discriminate].
  intros _. do 4 eexists. repeat split.
Qed.

Section Route.

Variable U : Codec.

(** The steps behind a response with status 200. *)
Lemma func_success_inv (req : Request) (c : Certificate) (sn : string)
    (lines : list LogLine) :
  func U req = (success c sn, lines) ->
  exists b cn ty fs kr idk valid hmac plain pk sig,
    body req = Members b
    /\ certifierSignCheckArgs b = Ok tt
    /\ clientNonce b = Some cn /\ type b = Some ty
    /\ fields b = Some fs /\ masterKeyring b = Some kr
    /\ auth req = Some idk
    /\ verifyNonce (wallet req) cn idk = Ok valid
    /\ createNonce (wallet req) idk = Ok sn
    /\ createHmac (wallet req) (hmacArgs U cn sn idk) = Ok hmac
    /\ decryptFields (wallet req) kr fs idk = Ok plain
    /\ getPublicKey (wallet req) = Ok pk
    /\ sign (wallet req)
         {| cert_type := ty; serialNumber := toBase64 U hmac;
            subject := idk; certifier := pk;
            revocationOutpoint := revocationTxid ++ ".0";
            cert_fields := fs; signature := None |} = Ok sig
    /\ c = {| cert_type := ty; serialNumber := toBase64 U hmac;
              subject := idk; certifier := pk;
              revocationOutpoint := revocationTxid ++ ".0";
              cert_fields := fs; signature := Some sig |}
    /\ lines = [LogClientNonce (Some cn); LogDecryptedFields plain].
Proof.
  unfold func, success.
  destruct (body req) as [| |b] eqn:Hbody; [discriminate|discriminate|].
  destruct (certifierSignCheckArgs b) as [[]|m] eqn:Hcheck;
    [|discriminate].
  destruct (check_passes _ Hcheck) as (cn & ty & fs & kr & Hcn & Hty & Hfs & Hkr).
  unfold issue. rewrite Hcn, Hty, Hfs, Hkr. cbn [the].
  unfold bind, await, ret, console.
  destruct (auth req) as [idk|]; [|discriminate].
  destruct (verifyNonce (wallet req) cn idk) as [valid|] eqn:Hv; [|discriminate].
  destruct (createNonce (wallet req) idk) as [sn'|] eqn:Hn; [|discriminate].
  destruct (createHmac (wallet req) (hmacArgs U cn sn' idk)) as [hmac|] eqn:Hh;
    [|discriminate].
  destruct (decryptFields (wallet req) kr fs idk) as [plain|] eqn:Hd;
    [|discriminate].
  destruct (getPublicKey (wallet req)) as [pk|] eqn:Hp; [|discriminate].
  match goal with
  | |- context [sign (wallet req) ?x] =>
      destruct (sign (wallet req) x) as [sig|] eqn:Hs; [|discriminate]
  end.
  cbn [app]. intros H. injection H as Hc Hsn Hl. subst sn'.
  exists b, cn, ty, fs, kr, idk, valid, hmac, plain, pk, sig.
  repeat split; try assumption; try reflexivity; symmetry; assumption.
Qed.

(** When every step succeeds the route answers with the signed
    certificate. *)
Lemma func_success (req : Request) b cn ty fs kr idk valid sn hmac plain pk
    sig :
  body req = Members b ->
  clientNonce b = Some cn -> cn <> "" ->
  type b = Some ty -> ty <> "" ->
  fields b = Some fs -> masterKeyring b = Some kr ->
  auth req = Some idk ->
  verifyNonce (wallet req) cn idk = Ok valid ->
  createNonce (wallet req) idk = Ok sn ->
  createHmac (wallet req) (hmacArgs U cn sn idk) = Ok hmac ->
  decryptFields (wallet req) kr fs idk = Ok plain ->
  getPublicKey (wallet req) = Ok pk ->
  sign (wallet req)
    {| cert_type := ty; serialNumber := toBase64 U hmac;
       subject := idk; certifier := pk;
       revocationOutpoint := revocationTxid ++ ".0";
       cert_fields := fs; signature := None |} = Ok sig ->
  func U req =
    (success
       {| cert_type := ty; serialNumber := toBase64 U hmac;
          subject := idk; certifier := pk;
          revocationOutpoint := revocationTxid ++ ".0";
          cert_fields := fs; signature := Some sig |} sn,
     [LogClientNonce (Some cn); LogDecryptedFields plain]).
Proof.
  intros Hbody Hcn Hcn0 Hty Hty0 Hfs Hkr Hauth Hv Hn Hh Hd Hp Hs.
  apply String.eqb_neq in Hcn0, Hty0.
  unfold func, certifierSignCheckArgs, issue.
  rewrite Hbody, Hcn, Hty, Hfs, Hkr, Hauth. cbn [Js.truthy_str the].
  rewrite Hcn0, Hty0. cbn [negb].
  unfold bind, await, ret, console.
  rewrite Hv, Hn, Hh, Hd, Hp, Hs. reflexivity.
Qed.

(** The strings that validation has let through are not empty. *)
Lemma check_nonempty (b : Body) (cn ty : string) :
  certifierSignCheckArgs b = Ok tt ->
  clientNonce b = Some cn -> type b = Some ty -> cn <> "" /\ ty <> "".
Proof.
  unfold certifierSignCheckArgs. intros H Hcn Hty. rewrite Hcn, Hty in H.
  cbn [Js.truthy_str] in H.
  destruct (String.eqb cn "") eqn:Ecn; cbn [negb] in H; [discriminate|].
  destruct (String.eqb ty "") eqn:Ety; cbn [negb] in H; [discriminate|].
  apply String.eqb_neq in Ecn, Ety. split; assumption.
Qed.

(** The steps after validation end in a response with status 200 or in an
    error. *)
Lemma issue_response (b : Body) (req : Request) (lines : list LogLine)
    (response : Response) :
  issue U b req = (lines, Ok response) ->
  exists c sn, response = success c sn.
Proof.
  unfold issue, bind, await, ret, console.
  repeat match goal with
         | |- context [match ?x with Ok _ => _ | Err _ => _ end] =>
             destruct x; try discriminate
         | |- context [match auth req with Some _ => _ | None => _ end] =>
             destruct (auth req); try discriminate
         end.
  intros H. injection H as _ H. subst response. do 2 eexists. reflexivity.
Qed.

(** After validation the response is the signed certificate or the generic
    failure; a failure leaves its message in the console only. *)
Lemma func_after_validation (req : Request) (b : Body) :
  body req = Members b ->
  certifierSignCheckArgs b = Ok tt ->
  (exists c sn lines,
     issue U b req = (lines, Ok (success c sn))
     /\ func U req = (success c sn, LogClientNonce (clientNonce b) :: lines))
  \/ (exists lines e,
        issue U b req = (lines, Err e)
        /\ func U req =
             (internalError,
              LogClientNonce (clientNonce b) :: lines ++ [LogError e])).
Proof.
  intros Hbody Hcheck. unfold func. rewrite Hbody, Hcheck.
  destruct (issue U b req) as [lines [response|e]] eqn:Hissue.
  - left. destruct (issue_response b req lines response Hissue)
      as (c & sn & ->).
    exists c, sn, lines. split; reflexivity.
  - right. exists lines, e. split; reflexivity.
Qed.

(** C1. A request that passes validation and the nonce check, and whose
    later steps succeed, is answered with a certificate whose serial number
    is the base64 text of the HMAC that the wallet computes over the decoded
    concatenation [clientNonce + serverNonce], under protocol [certificate
    issuance], key id [serverNonce + clientNonce] and the requester's
    identity key as counterparty. Once that HMAC is computed the route
    answers with a certificate that carries it or, when a later step fails,
    with the internal error; every certificate the route returns carries
    it; and two exchanges with the same nonces and identity, on wallets that
    compute the same HMAC, give the same serial number. *)
Theorem serialNumber_is_keyed_digest :
  (forall req b cn ty fs kr identityKey valid serverNonce hmac plain pk sig,
     body req = Members b ->
     certifierSignCheckArgs b = Ok tt ->
     clientNonce b = Some cn -> type b = Some ty ->
     fields b = Some fs -> masterKeyring b = Some kr ->
     auth req = Some identityKey ->
     verifyNonce (wallet req) cn identityKey = Ok valid ->
     createNonce (wallet req) identityKey = Ok serverNonce ->
     createHmac (wallet req)
       {| data := toArray_base64 U (cn ++ serverNonce);
          protocolID := (2%Z, "certificate issuance");
          keyID := serverNonce ++ cn;
          counterparty := identityKey |} = Ok hmac ->
     decryptFields (wallet req) kr fs identityKey = Ok plain ->
     getPublicKey (wallet req) = Ok pk ->
     sign (wallet req)
       {| cert_type := ty; serialNumber := toBase64 U hmac;
          subject := identityKey; certifier := pk;
          revocationOutpoint := revocationTxid ++ ".0";
          cert_fields := fs; signature := None |} = Ok sig ->
     fst (func U req) =
       success
         {| cert_type := ty; serialNumber := toBase64 U hmac;
            subject := identityKey; certifier := pk;
            revocationOutpoint := revocationTxid ++ ".0";
            cert_fields := fs; signature := Some sig |} serverNonce)
  /\ (forall req b cn identityKey valid serverNonce hmac,
     body req = Members b ->
     certifierSignCheckArgs b = Ok tt ->
     clientNonce b = Some cn ->
     auth req = Some identityKey ->
     verifyNonce (wallet req) cn identityKey = Ok valid ->
     createNonce (wallet req) identityKey = Ok serverNonce ->
     createHmac (wallet req)
       {| data := toArray_base64 U (cn ++ serverNonce);
          protocolID := (2%Z, "certificate issuance");
          keyID := serverNonce ++ cn;
          counterparty := identityKey |} = Ok hmac ->
     (exists lines e,
        issue U b req = (lines, Err e) /\ fst (func U req) = internalError)
     \/ exists c,
          fst (func U req) = success c serverNonce
          /\ serialNumber c = toBase64 U hmac)
  /\ (forall req c serverNonce lines,
     func U req = (success c serverNonce, lines) ->
     exists b cn identityKey hmac,
       body req = Members b
       /\ clientNonce b = Some cn
       /\ auth req = Some identityKey
       /\ createNonce (wallet req) identityKey = Ok serverNonce
       /\ createHmac (wallet req)
            {| data := toArray_base64 U (cn ++ serverNonce);
               protocolID := (2%Z, "certificate issuance");
               keyID := serverNonce ++ cn;
               counterparty := identityKey |} = Ok hmac
       /\ serialNumber c = toBase64 U hmac)
  /\ (forall req1 req2 b1 b2 c1 c2 serverNonce lines1 lines2,
        func U req1 = (success c1 serverNonce, lines1) ->
        func U req2 = (success c2 serverNonce, lines2) ->
        body req1 = Members b1 -> body req2 = Members b2 ->
        clientNonce b1 = clientNonce b2 ->
        auth req1 = auth req2 ->
        (forall args,
           createHmac (wallet req1) args = createHmac (wallet req2) args) ->
        serialNumber c1 = serialNumber c2).
Proof.
  split; [|split; [|split]].
  - intros req b cn ty fs kr idk valid sn hmac plain pk sig
      Hbody Hcheck Hcn Hty Hfs Hkr Hauth Hv Hn Hh Hd Hp Hs.
    destruct (check_nonempty b cn ty Hcheck Hcn Hty) as [Hcn0 Hty0].
    rewrite (func_success req b cn ty fs kr idk valid sn hmac plain pk sig
               Hbody Hcn Hcn0 Hty Hty0 Hfs Hkr Hauth Hv Hn Hh Hd Hp Hs).
    reflexivity.
  - intros req b cn idk valid sn hmac Hbody Hcheck Hcn Hauth Hv Hn Hh.
    destruct (func_after_validation req b Hbody Hcheck)
      as [(c & sn' & l & _ & Hfunc)|(l & e & Hissue & Hf)];
      [|left; exists l, e; split; [exact Hissue|rewrite Hf; reflexivity]].
    right.
    destruct (func_success_inv req c sn' _ Hfunc)
      as (b' & cn' & ? & ? & ? & idk' & ? & hmac' & ? & ? & ?
          & Hbody' & _ & Hcn' & _ & _ & _ & Hauth' & _ & Hn' & Hh' & _ & _ & _
          & Hc & _).
    rewrite Hbody in Hbody'. injection Hbody' as <-.
    rewrite Hcn in Hcn'. injection Hcn' as <-.
    rewrite Hauth in Hauth'. injection Hauth' as <-.
    rewrite Hn in Hn'. injection Hn' as <-.
    unfold hmacArgs in Hh'. rewrite Hh in Hh'. injection Hh' as <-.
    exists c. split; [rewrite Hfunc; reflexivity|]. subst c. reflexivity.
  - intros req c sn lines H.
    destruct (func_success_inv req c sn lines H)
      as (b & cn & ty & fs & kr & idk & valid & hmac & plain & pk & sig
          & Hbody & _ & Hcn & _ & _ & _ & Hauth & _ & Hn & Hh & _ & _ & _
          & Hc & _).
    exists b, cn, idk, hmac. subst c. repeat split; assumption.
  - intros req1 req2 b1 b2 c1 c2 sn lines1 lines2 H1 H2 Hb1 Hb2 Hcn Hauth
      Hsame.
    destruct (func_success_inv req1 c1 sn lines1 H1)
      as (b1' & cn1 & ? & ? & ? & idk1 & ? & hmac1 & ? & ? & ?
          & Hb1' & _ & Hcn1 & _ & _ & _ & Hauth1 & _ & _ & Hh1 & _ & _ & _
          & Hc1 & _).
    destruct (func_success_inv req2 c2 sn lines2 H2)
      as (b2' & cn2 & ? & ? & ? & idk2 & ? & hmac2 & ? & ? & ?
          & Hb2' & _ & Hcn2 & _ & _ & _ & Hauth2 & _ & _ & Hh2 & _ & _ & _
          & Hc2 & _).
    rewrite Hb1 in Hb1'. injection Hb1' as <-.
    rewrite Hb2 in Hb2'. injection Hb2' as <-.
    rewrite Hcn1, Hcn2 in Hcn. rewrite Hauth1, Hauth2 in Hauth.
    injection Hcn as <-. injection Hauth as <-.
    rewrite Hsame, Hh2 in Hh1. injection Hh1 as <-.
    subst c1 c2. reflexivity.
Qed.

(** C2, amended. The [fields] of every certificate the route returns are
    the fields the client submitted. What decrypting them yields is not
    checked and takes no part in the response: whatever the plaintext, the
    same certificate and server nonce are sent. The plaintext is written to
    the server's console, after the client nonce, whenever a certificate is
    returned, and it is exactly what [decryptFields] gave for the submitted
    keyring and fields. *)
Theorem certificate_keeps_submitted_fields :
  (forall req b cn ty fs kr identityKey valid serverNonce hmac plain pk sig,
     body req = Members b ->
     certifierSignCheckArgs b = Ok tt ->
     clientNonce b = Some cn -> type b = Some ty ->
     fields b = Some fs -> masterKeyring b = Some kr ->
     auth req = Some identityKey ->
     verifyNonce (wallet req) cn identityKey = Ok valid ->
     createNonce (wallet req) identityKey = Ok serverNonce ->
     createHmac (wallet req) (hmacArgs U cn serverNonce identityKey)
       = Ok hmac ->
     decryptFields (wallet req) kr fs identityKey = Ok plain ->
     getPublicKey (wallet req) = Ok pk ->
     sign (wallet req)
       {| cert_type := ty; serialNumber := toBase64 U hmac;
          subject := identityKey; certifier := pk;
          revocationOutpoint := revocationTxid ++ ".0";
          cert_fields := fs; signature := None |} = Ok sig ->
     exists c,
       func U req =
         (success c serverNonce,
          [LogClientNonce (Some cn); LogDecryptedFields plain])
       /\ cert_fields c = fs)
  /\ (forall req c serverNonce lines,
     func U req = (success c serverNonce, lines) ->
     exists b keyring identityKey plain,
       body req = Members b
       /\ fields b = Some (cert_fields c)
       /\ masterKeyring b = Some keyring
       /\ auth req = Some identityKey
       /\ decryptFields (wallet req) keyring (cert_fields c) identityKey
          = Ok plain
       /\ lines = [LogClientNonce (clientNonce b); LogDecryptedFields plain])
  /\ (forall req c serverNonce lines plain,
        func U req = (success c serverNonce, lines) ->
        exists b,
          body req = Members b
          /\ func U (decryptingTo (Ok plain) req) =
               (success c serverNonce,
                [LogClientNonce (clientNonce b); LogDecryptedFields plain])).
Proof.
  split; [|split].
  - intros req b cn ty fs kr idk valid sn hmac plain pk sig
      Hbody Hcheck Hcn Hty Hfs Hkr Hauth Hv Hn Hh Hd Hp Hs.
    destruct (check_nonempty b cn ty Hcheck Hcn Hty) as [Hcn0 Hty0].
    eexists. split.
    + exact (func_success req b cn ty fs kr idk valid sn hmac plain pk sig
               Hbody Hcn Hcn0 Hty Hty0 Hfs Hkr Hauth Hv Hn Hh Hd Hp Hs).
    + reflexivity.
  - intros req c sn lines H.
    destruct (func_success_inv req c sn lines H)
      as (b & cn & ty & fs & kr & idk & valid & hmac & plain & pk & sig
          & Hbody & _ & Hcn & _ & Hfs & Hkr & Hauth & _ & _ & _ & Hd & _ & _
          & Hc & Hlines).
    exists b, kr, idk, plain. subst c. cbn [cert_fields].
    rewrite Hcn. repeat split; assumption.
  - intros req c sn lines plain' H.
    destruct (func_success_inv req c sn lines H)
      as (b & cn & ty & fs & kr & idk & valid & hmac & plain & pk & sig
          & Hbody & Hcheck & Hcn & Hty & Hfs & Hkr & Hauth & Hv & Hn & Hh & _
          & Hp & Hs & Hc & _).
    exists b. split; [exact Hbody|].
    unfold func, issue, decryptingTo. cbn [body wallet auth].
    rewrite Hbody, Hcheck, Hcn, Hty, Hfs, Hkr, Hauth. cbn [the].
    unfold bind, await, ret, console.
    cbn [verifyNonce createNonce createHmac decryptFields getPublicKey sign].
    rewrite Hv, Hn, Hh, Hp, Hs. subst c. reflexivity.
Qed.

(** C8, amended. A request whose body has members and lacks one of
    [clientNonce], [type], [fields], [masterKeyring] is answered with status
    400 and the message of the first one missing, in that order. Once
    validation has passed, a step that fails (the nonce check, the
    decryption and the signing among them) is answered with status 500 and
    the fixed body [ERR_INTERNAL]; the failure's message goes to the console
    and not into the response. A request with no body, or with the body
    [null], gets that same answer with status 500. *)
Theorem signCertificate_error_responses (req : Request) :
  (forall b,
     body req = Members b ->
     (Js.truthy_str (clientNonce b) = false ->
      fst (func U req) = badRequest "Missing client nonce!")
     /\ (Js.truthy_str (clientNonce b) = true ->
         Js.truthy_str (type b) = false ->
         fst (func U req) = badRequest "Missing certificate type!")
     /\ (Js.truthy_str (clientNonce b) = true ->
         Js.truthy_str (type b) = true ->
         fields b = None ->
         fst (func U req) = badRequest "Missing certificate fields to sign!")
     /\ (Js.truthy_str (clientNonce b) = true ->
         Js.truthy_str (type b) = true ->
         fields b <> None ->
         masterKeyring b = None ->
         fst (func U req)
         = badRequest "Missing masterKeyring to decrypt fields!")
     /\ (certifierSignCheckArgs b = Ok tt ->
         (forall lines e,
            issue U b req = (lines, Err e) ->
            func U req =
              (internalError,
               LogClientNonce (clientNonce b) :: lines ++ [LogError e]))
         /\ (forall cn identityKey e,
               clientNonce b = Some cn -> auth req = Some identityKey ->
               verifyNonce (wallet req) cn identityKey = Err e ->
               fst (func U req) = internalError)
         /\ (forall keyring submitted identityKey e,
               masterKeyring b = Some keyring -> fields b = Some submitted ->
               auth req = Some identityKey ->
               decryptFields (wallet req) keyring submitted identityKey
               = Err e ->
               fst (func U req) = internalError)
         /\ ((forall c, exists e, sign (wallet req) c = Err e) ->
             fst (func U req) = internalError)
         /\ (fst (func U req) = internalError
             \/ exists c serverNonce,
                  fst (func U req) = success c serverNonce)))
  /\ (body req = Undefined ->
      func U req
      = (internalError, [LogError (notDestructurable "undefined")]))
  /\ (body req = Null ->
      func U req = (internalError, [LogError (notDestructurable "null")])).
Proof.
  split; [|split;
           intros Hbody; unfold func; rewrite Hbody; reflexivity].
  intros b Hbody.
  split; [|split; [|split; [|split]]].
  - intros H. unfold func, certifierSignCheckArgs. rewrite Hbody, H.
    reflexivity.
  - intros H1 H2. unfold func, certifierSignCheckArgs. rewrite Hbody, H1, H2.
    reflexivity.
  - intros H1 H2 H3. unfold func, certifierSignCheckArgs.
    rewrite Hbody, H1, H2, H3. reflexivity.
  - intros H1 H2 H3 H4. unfold func, certifierSignCheckArgs.
    rewrite Hbody, H1, H2, H4. destruct (fields b); [reflexivity|].
    contradiction.
  - intros Hcheck.
    split; [|split; [|split; [|split]]].
    + intros lines e Hissue. unfold func. rewrite Hbody, Hcheck, Hissue.
      reflexivity.
    + intros cn idk e Hcn Hauth Hv.
      destruct (func_after_validation req b Hbody Hcheck)
        as [(c & sn & l & _ & Hfunc)|(l & e' & _ & Hf)];
        [|rewrite Hf; reflexivity].
      destruct (func_success_inv req c sn _ Hfunc)
        as (b' & cn' & ? & ? & ? & idk' & valid & ? & ? & ? & ?
            & Hbody' & _ & Hcn' & _ & _ & _ & Hauth' & Hv' & _).
      rewrite Hbody in Hbody'. injection Hbody' as <-. congruence.
    + intros kr fs idk e Hkr Hfs Hauth Hd.
      destruct (func_after_validation req b Hbody Hcheck)
        as [(c & sn & l & _ & Hfunc)|(l & e' & _ & Hf)];
        [|rewrite Hf; reflexivity].
      destruct (func_success_inv req c sn _ Hfunc)
        as (b' & ? & ? & fs' & kr' & idk' & ? & ? & ? & ? & ?
            & Hbody' & _ & _ & _ & Hfs' & Hkr' & Hauth' & _ & _ & _ & Hd' & _).
      rewrite Hbody in Hbody'. injection Hbody' as <-. congruence.
    + intros Hsign.
      destruct (func_after_validation req b Hbody Hcheck)
        as [(c & sn & l & _ & Hfunc)|(l & e' & _ & Hf)];
        [|rewrite Hf; reflexivity].
      destruct (func_success_inv req c sn _ Hfunc)
        as (? & ? & ? & ? & ? & ? & ? & ? & ? & ? & ?
            & _ & _ & _ & _ & _ & _ & _ & _ & _ & _ & _ & _ & Hs & _).
      match type of Hs with
      | sign _ ?x = _ => destruct (Hsign x) as [e He]
      end.
      congruence.
    + destruct (func_after_validation req b Hbody Hcheck)
        as [(c & sn & l & _ & Hfunc)|(l & e' & _ & Hf)].
      * right. exists c, sn. rewrite Hfunc. reflexivity.
      * left. rewrite Hf. reflexivity.
Qed.

End Route.

(** C2, as stated, fails: the decrypted fields are not used for validation
    only. The route writes them to the console (the sample request leaves
    its plaintext there, and another plaintext leaves other lines), and it
    validates nothing with them: the sample request is answered with the
    same certificate when its fields decrypt to nothing at all. *)
Lemma decrypted_fields_are_logged_and_unchecked :
  In (LogDecryptedFields [("cool", "true")])
    (snd (func Sample.codec Sample.request))
  /\ snd (func Sample.codec
            (decryptingTo (Ok [("cool", "false")]) Sample.request))
     <> snd (func Sample.codec Sample.request)
  /\ fst (func Sample.codec (decryptingTo (Ok []) Sample.request))
     = success Sample.certificate "c2VydmVy".
Proof.
  split; [|split].
  - right. left. reflexivity.
  - discriminate.
  - reflexivity.
Qed.

(** C8, as stated, fails: a request with no body lacks all four members and
    is answered with status 500, not with status 400 and the name of the
    first member missing. *)
Lemma missing_body_is_internal_error :
  body Sample.requestNoBody = Undefined
  /\ func Sample.codec Sample.requestNoBody
     = (internalError,
        [LogError
           "Cannot destructure property 'clientNonce' of 'req.body' as it is undefined."])
  /\ http_status (fst (func Sample.codec Sample.requestNoBody)) = 500%Z
  /\ fst (func Sample.codec Sample.requestNoBody)
     <> badRequest "Missing client nonce!".
Proof.
  split; [reflexivity|]. split; [reflexivity|]. split; [reflexivity|].
  discriminate.
Qed.

Lemma serialNumber_is_keyed_digest_witness :
  fst (func Sample.codec Sample.request)
  = success Sample.certificate "c2VydmVy"
  /\ serialNumber Sample.certificate
     = toBase64 Sample.codec
         (toArray_base64 Sample.codec ("Y2xpZW50" ++ "c2VydmVy")).
Proof.
  split; [|reflexivity].
  exact (proj1 (serialNumber_is_keyed_digest Sample.codec)
           Sample.request Sample.members "Y2xpZW50" "jVNgF8"
           [("cool", "ZW5jcnlwdGVk")] [("cool", "Eb8Nc9")] "02a1c8" true
           "c2VydmVy"
           (toArray_base64 Sample.codec ("Y2xpZW50" ++ "c2VydmVy"))
           [("cool", "true")] "025384" "3045"
           eq_refl eq_refl eq_refl eq_refl eq_refl eq_refl eq_refl eq_refl
           eq_refl eq_refl eq_refl eq_refl eq_refl).
Defined.

Lemma certificate_keeps_submitted_fields_witness :
  (exists b,
     body Sample.request = Members b
     /\ fields b = Some (cert_fields Sample.certificate))
  /\ func Sample.codec
       (decryptingTo (Ok [("cool", "false"); ("age", "41")]) Sample.request)
     = (success Sample.certificate "c2VydmVy",
        [LogClientNonce (Some "Y2xpZW50");
         LogDecryptedFields [("cool", "false"); ("age", "41")]]).
Proof.
  split.
  - destruct (proj1 (proj2 (certificate_keeps_submitted_fields Sample.codec))
                Sample.request Sample.certificate "c2VydmVy"
                [LogClientNonce (Some "Y2xpZW50");
                 LogDecryptedFields [("cool", "true")]]
                eq_refl) as (b & _ & _ & _ & Hbody & Hfields & _).
    exists b. split; assumption.
  - destruct (proj2 (proj2 (certificate_keeps_submitted_fields Sample.codec))
                Sample.request Sample.certificate "c2VydmVy"
                [LogClientNonce (Some "Y2xpZW50");
                 LogDecryptedFields [("cool", "true")]]
                [("cool", "false"); ("age", "41")]
                eq_refl) as (b & Hbody & Hfunc).
    injection Hbody as <-. exact Hfunc.
Defined.

Lemma signCertificate_error_responses_witness :
  fst (func Sample.codec Sample.requestNoKeyring)
    = badRequest "Missing masterKeyring to decrypt fields!"
  /\ func Sample.codec Sample.requestBadKeyring
     = (internalError,
        [LogClientNonce (Some "Y2xpZW50");
         LogError "Decryption failed for field cool"]).
Proof.
  split.
  - destruct (proj1 (signCertificate_error_responses Sample.codec
                       Sample.requestNoKeyring)
                Sample.membersNoKeyring eq_refl)
      as (_ & _ & _ & Hkeyring & _).
    apply Hkeyring; [reflexivity|reflexivity|discriminate|reflexivity].
  - destruct (proj1 (signCertificate_error_responses Sample.codec
                       Sample.requestBadKeyring)
                Sample.members eq_refl) as (_ & _ & _ & _ & Hafter).
    destruct (Hafter eq_refl) as (Hgeneric & _).
    exact (Hgeneric [] "Decryption failed for field cool" eq_refl).
Defined.

End CertifierFacts.

(** * Further properties *)

(** ** Resolution *)

Module ResolveFacts.
Import Js JsFacts Registry RegistryFacts.

(** *** Computations that only read *)

Lemma same_store_refl (w : World) : same_store w w.
Proof. repeat split. Qed.

Lemma console_grows_refl (w : World) : console_grows w w.
Proof. exists []. symmetry. apply List.app_nil_r. Qed.

Lemma console_grows_trans (w1 w2 w3 : World) :
  console_grows w1 w2 -> console_grows w2 w3 -> console_grows w1 w3.
Proof.
  intros [l1 H1] [l2 H2]. exists (l1 ++ l2)%list.
  rewrite H2, H1, List.app_assoc. reflexivity.
Qed.

Lemma same_store_trans (w1 w2 w3 : World) :
  same_store w1 w2 -> same_store w2 w3 -> same_store w1 w3.
Proof.
  intros (A1 & A2 & A3 & A4) (B1 & B2 & B3 & B4).
  repeat split; congruence.
Qed.

Lemma read_only_ret {A} (a : A) : read_only (ret a).
Proof. intros w. split; [apply same_store_refl|apply console_grows_refl]. Qed.

Lemma read_only_throw {A} (e : string) : read_only (@throw A e).
Proof. intros w. split; [apply same_store_refl|apply console_grows_refl]. Qed.

Lemma read_only_await {A} (r : result A) : read_only (await r).
Proof. intros w. split; [apply same_store_refl|apply console_grows_refl]. Qed.

Lemma read_only_console_error (label e : string) :
  read_only (console_error label e).
Proof.
  intros w. split; [repeat split|]. exists [(label, e)]. reflexivity.
Qed.

Lemma read_only_findOne (serial : string) : read_only (findOne serial).
Proof.
  intros w. unfold findOne. destruct (db_fault w);
    (split; [apply same_store_refl|apply console_grows_refl]).
Qed.

Lemma read_only_bind {A B} (m : M A) (k : A -> M B) :
  read_only m -> (forall a, read_only (k a)) -> read_only (bind m k).
Proof.
  intros Hm Hk w. unfold bind. specialize (Hm w).
  destruct (m w) as [[a|e] w1]; cbn [snd] in *; [|exact Hm].
  specialize (Hk a w1). destruct Hm as [S1 G1], Hk as [S2 G2].
  split; [eapply same_store_trans|eapply console_grows_trans]; eassumption.
Qed.

Lemma read_only_try_catch {A} (m : M A) (h : string -> M A) :
  read_only m -> (forall e, read_only (h e)) -> read_only (try_catch m h).
Proof.
  intros Hm Hh w. unfold try_catch. specialize (Hm w).
  destruct (m w) as [[a|e] w1]; cbn [snd] in *; [exact Hm|].
  specialize (Hh e w1). destruct Hm as [S1 G1], Hh as [S2 G2].
  split; [eapply same_store_trans|eapply console_grows_trans]; eassumption.
Qed.

Ltac read_only_step :=
  first
    [ apply read_only_ret | apply read_only_throw | apply read_only_await
    | apply read_only_console_error | apply read_only_findOne
    | apply read_only_bind; [|intros ?] 
    | apply read_only_try_catch; [|intros ?] ].

Lemma read_only_queryOverlay (P : Platform) (url serial outpoint : string) :
  read_only (queryOverlay P url serial outpoint).
Proof.
  unfold queryOverlay.
  apply read_only_bind; [apply read_only_await|intros response].
  destruct (negb (ok response)); [repeat read_only_step|].
  apply read_only_bind; [apply read_only_await|intros data].
  destruct (answer_type data) as [ty|]; [|apply read_only_ret].
  destruct (answer_outputs data) as [[|output others]|];
    try apply read_only_ret.
  destruct (String.eqb ty "output-list"); [|apply read_only_ret].
  destruct (output_fields output) as [[|field more]|];
    try apply read_only_ret.
  apply read_only_try_catch; [|intros e; repeat read_only_step].
  destruct field; repeat read_only_step.
Qed.

Section Resolve.

Variable P : Platform.
Variable cfg : Config.

(** X1. [resolveDID] reads: whatever the identifier, the index, the database and
    the overlay do, it leaves the wallet client, the collection and the
    requests as they were and only adds lines to the console. *)
Theorem resolveDID_read_only (did : string) (car : CreateActionResult) :
  read_only (resolveDID P cfg did car).
Proof.
  unfold resolveDID.
  apply read_only_try_catch; [|intros e; repeat read_only_step].
  destruct (negb _); [apply read_only_throw|].
  destruct (db cfg); [|apply read_only_ret].
  apply read_only_bind; [apply read_only_findOne|intros [r|]];
    [|apply read_only_ret].
  destruct (truthy (didDocument r)); [apply read_only_ret|].
  destruct (vout r) as [n|]; [|apply read_only_ret].
  destruct (truthy_str (rec_txid r)); [|apply read_only_ret].
  destruct (String.eqb (overlayProvider cfg) ""); [apply read_only_throw|].
  apply read_only_bind.
  - apply read_only_try_catch; [apply read_only_queryOverlay|].
    intros e. repeat read_only_step.
  - intros [d|]; apply read_only_ret.
Qed.


(** X3. An identifier that is not [did:bsv:<topic>:<serial>] (a wrong count, or
    four segments under another method or scheme) is rejected before the
    index is read. *)
Theorem resolveDID_rejects_other_schemes (did : string)
    (car : CreateActionResult) (w : World) :
  (forall t s, split colon did <> ["did"; "bsv"; t; s]) ->
  resolveDID P cfg did car w =
    (Err "Failed to resolve DID: Invalid DID format",
     snd (console_error "[BsvOverlayRegistry] Error resolving DID:"
            "Invalid DID format" w)).
Proof.
  intros Hform. unfold resolveDID. run.
  destruct (split colon did) as [|a [|b [|t [|s [|x rest]]]]] eqn:E;
    try reflexivity.
  cbn [List.length nth Nat.eqb andb].
  destruct (String.eqb a "did") eqn:Ea; [|reflexivity].
  destruct (String.eqb b "bsv") eqn:Eb; [|reflexivity].
  apply String.eqb_eq in Ea, Eb. subst a b.
  exfalso. exact (Hform t s eq_refl).
Qed.

(** X4. With no database handle, with no record under the serial number, or with
    a record that has neither a document nor an outpoint, [resolveDID]
    returns [null] and changes nothing; the overlay is not asked. *)
Theorem resolveDID_null_without_hint (did : string)
    (car : CreateActionResult) (w : World) (t serial : string) :
  split colon did = ["did"; "bsv"; t; serial] ->
  db cfg = false
  \/ (db_fault w = None
      /\ match find (fun x => String.eqb (serialNumber x) serial)
                 (did_lookups w) with
         | None => True
         | Some r =>
             truthy (didDocument r) = false
             /\ (vout r = None \/ truthy_str (rec_txid r) = false)
         end) ->
  resolveDID P cfg did car w = (Ok None, w).
Proof.
  intros Hparts Hcase. unfold resolveDID. rewrite Hparts.
  cbn [List.length nth Nat.eqb String.eqb Ascii.eqb Bool.eqb andb negb].
  destruct Hcase as [Hdb|[Hup Hrec]].
  - rewrite Hdb. reflexivity.
  - destruct (db cfg); [|reflexivity]. run. rewrite Hup.
    destruct (find _ (did_lookups w)) as [r|]; [|reflexivity].
    destruct Hrec as [Hdoc Hout]. rewrite Hdoc.
    destruct Hout as [Hv|Ht].
    + rewrite Hv. reflexivity.
    + destruct (vout r); [rewrite Ht|]; reflexivity.
Qed.

(** X5. A record that holds a document answers the call by itself: the document
    is returned as stored, whatever topic the identifier or the record
    names, whether or not the record has an outpoint, and without the
    overlay. *)
Theorem resolveDID_returns_stored_document (did : string)
    (car : CreateActionResult) (w : World) (t serial : string)
    (r : LookupRecord) :
  split colon did = ["did"; "bsv"; t; serial] ->
  db cfg = true ->
  db_fault w = None ->
  find (fun x => String.eqb (serialNumber x) serial) (did_lookups w) = Some r ->
  truthy (didDocument r) = true ->
  resolveDID P cfg did car w = (Ok (didDocument r), w).
Proof.
  intros Hparts Hdb Hup Hfind Hdoc. unfold resolveDID. rewrite Hparts.
  cbn [List.length nth Nat.eqb String.eqb Ascii.eqb Bool.eqb andb negb].
  rewrite Hdb. run. rewrite Hup, Hfind, Hdoc. reflexivity.
Qed.

(** X6. The topic segment of the identifier plays no part in resolution (and
    neither does the second argument): two identifiers with the same serial
    number resolve alike. *)
Theorem resolveDID_ignores_topic (did1 did2 : string)
    (car1 car2 : CreateActionResult) (t1 t2 serial : string) (w : World) :
  split colon did1 = ["did"; "bsv"; t1; serial] ->
  split colon did2 = ["did"; "bsv"; t2; serial] ->
  resolveDID P cfg did1 car1 w = resolveDID P cfg did2 car2 w.
Proof.
  intros H1 H2. unfold resolveDID. rewrite H1, H2. reflexivity.
Qed.

(** X7. When the database rejects the lookup, [resolveDID] fails with the
    database's message behind its prefix. *)
Theorem resolveDID_database_failure (did : string)
    (car : CreateActionResult) (w : World) (t serial e : string) :
  split colon did = ["did"; "bsv"; t; serial] ->
  db cfg = true ->
  db_fault w = Some e ->
  resolveDID P cfg did car w =
    (Err ("Failed to resolve DID: " ++ e),
     snd (console_error "[BsvOverlayRegistry] Error resolving DID:" e w)).
Proof.
  intros Hparts Hdb Hdown. unfold resolveDID. rewrite Hparts.
  cbn [List.length nth Nat.eqb String.eqb Ascii.eqb Bool.eqb andb negb].
  rewrite Hdb. destruct w as [client records fault sent lines].
  cbn [db_fault] in Hdown. subst fault. reflexivity.
Qed.

End Resolve.

Section OverlayAnswer.

Variable P : Platform.
Variable cfg : Config.
Variable w : World.
Variable did : string.
Variable car : CreateActionResult.
Variable t serial : string.
Variable r : LookupRecord.
Variable n : Z.

Hypothesis did_parts : split colon did = ["did"; "bsv"; t; serial].
Hypothesis db_given : db cfg = true.
Hypothesis db_up : db_fault w = None.
Hypothesis indexed :
  find (fun x => String.eqb (serialNumber x) serial) (did_lookups w) = Some r.
Hypothesis no_document : truthy (didDocument r) = false.
Hypothesis has_txid : truthy_str (rec_txid r) = true.
Hypothesis has_vout : vout r = Some n.

(** X8. With no overlay provider configured, a record that only has an outpoint
    makes [resolveDID] fail, and nothing is fetched. *)
Theorem resolveDID_provider_unset :
  overlayProvider cfg = "" ->
  resolveDID P cfg did car w =
    (Err "Failed to resolve DID: Overlay provider URL not configured",
     snd (console_error "[BsvOverlayRegistry] Error resolving DID:"
            "Overlay provider URL not configured" w)).
Proof.
  intros Hprov. unfold resolveDID. rewrite did_parts.
  cbn [List.length nth Nat.eqb String.eqb Ascii.eqb Bool.eqb andb negb].
  rewrite db_given. unfold try_catch, bind, findOne.
  rewrite db_up, indexed, no_document, has_vout, has_txid, Hprov.
  reflexivity.
Qed.

(** X9. The overlay is asked at [<provider>/lookup] for service [ls_did] with
    the serial number and the outpoint [<txid>.<vout>] of the record; the
    first field of the first output is the answer: parsed when it is text,
    as it is otherwise. *)
Theorem resolveDID_overlay_document (response : Response)
    (data : LookupAnswer) (output : Output) (others : list Output)
    (field : Json) (more : list Json) :
  String.eqb (overlayProvider cfg) "" = false ->
  fetch P (overlayProvider cfg ++ "/lookup")
    {| service := "ls_did";
       query_serialNumber := serial;
       query_outpoint := show (rec_txid r) ++ "." ++ toString (Int n) |}
    = Ok response ->
  ok response = true ->
  json response = Ok data ->
  answer_type data = Some "output-list" ->
  answer_outputs data = Some (output :: others) ->
  output_fields output = Some (field :: more) ->
  (forall text document,
     field = JStr text -> parse P text = Ok document ->
     resolveDID P cfg did car w = (Ok (Some document), w))
  /\ ((forall text, field <> JStr text) ->
      resolveDID P cfg did car w = (Ok (Some field), w)).
Proof.
  intros Hprov Hfetch Hok Hjson Htype Houts Hfields.
  rewrite (resolveDID_via_overlay P cfg w did car t serial r n
             did_parts db_given db_up indexed no_document has_txid has_vout
             Hprov).
  unfold queryOverlay. run. rewrite Hfetch, Hok. cbn [negb].
  rewrite Hjson, Htype, Houts. cbn [String.eqb Ascii.eqb Bool.eqb].
  rewrite Hfields.
  split.
  - intros text document -> Hparse. rewrite Hparse. reflexivity.
  - intros Hother. destruct field; try reflexivity.
    exfalso. exact (Hother s eq_refl).
Qed.

End OverlayAnswer.


Lemma resolveDID_rejects_other_schemes_witness :
  fst (resolveDID Sample.sdk Sample.registry "did:web:tm_did:abcd"
         Sample.anchor Sample.storedWorld)
  = Err "Failed to resolve DID: Invalid DID format".
Proof.
  rewrite (resolveDID_rejects_other_schemes Sample.sdk Sample.registry
             "did:web:tm_did:abcd" Sample.anchor Sample.storedWorld).
  - reflexivity.
  - intros t s H. vm_compute in H. discriminate H.
Defined.

Lemma resolveDID_null_without_hint_witness :
  resolveDID Sample.sdk Sample.registry "did:bsv:tm_did:ffff" Sample.anchor
    Sample.storedWorld
  = (Ok None, Sample.storedWorld).
Proof.
  apply (resolveDID_null_without_hint Sample.sdk Sample.registry
           "did:bsv:tm_did:ffff" Sample.anchor Sample.storedWorld
           "tm_did" "ffff" eq_refl).
  right. split; [reflexivity|]. vm_compute. exact I.
Defined.

Lemma resolveDID_returns_stored_document_witness :
  resolveDID Sample.sdk Sample.registry "did:bsv:tm_did:abcd" Sample.anchor
    Sample.storedWorld
  = (Ok (Some (JObj [("id", JStr "did:bsv:elsewhere:abcd")])),
     Sample.storedWorld).
Proof.
  exact (resolveDID_returns_stored_document Sample.sdk Sample.registry
           "did:bsv:tm_did:abcd" Sample.anchor Sample.storedWorld
           "tm_did" "abcd" Sample.stored
           eq_refl eq_refl eq_refl eq_refl eq_refl).
Defined.

Lemma resolveDID_ignores_topic_witness :
  resolveDID Sample.sdk Sample.registry "did:bsv:tm_did:abcd" Sample.anchor
    Sample.hintWorld
  = resolveDID Sample.sdk Sample.registry "did:bsv:another:abcd"
      {| txid := None; tx := None |} Sample.hintWorld.
Proof.
  exact (resolveDID_ignores_topic Sample.sdk Sample.registry
           "did:bsv:tm_did:abcd" "did:bsv:another:abcd" Sample.anchor
           {| txid := None; tx := None |} "tm_did" "another" "abcd"
           Sample.hintWorld eq_refl eq_refl).
Defined.

Lemma resolveDID_database_failure_witness :
  fst (resolveDID Sample.sdk Sample.registry "did:bsv:tm_did:abcd"
         Sample.anchor Sample.downWorld)
  = Err "Failed to resolve DID: connection refused".
Proof.
  exact (f_equal fst
           (resolveDID_database_failure Sample.sdk Sample.registry
              "did:bsv:tm_did:abcd" Sample.anchor Sample.downWorld
              "tm_did" "abcd" "connection refused"
              eq_refl eq_refl eq_refl)).
Defined.

Lemma resolveDID_provider_unset_witness :
  fst (resolveDID Sample.sdk (constructor "tm_did" "" true)
         "did:bsv:tm_did:abcd" Sample.anchor Sample.hintWorld)
  = Err "Failed to resolve DID: Overlay provider URL not configured".
Proof.
  exact (f_equal fst
           (resolveDID_provider_unset Sample.sdk
              (constructor "tm_did" "" true) Sample.hintWorld
              "did:bsv:tm_did:abcd" Sample.anchor "tm_did" "abcd"
              Sample.hint 0%Z
              eq_refl eq_refl eq_refl eq_refl eq_refl eq_refl eq_refl
              eq_refl)).
Defined.

Lemma resolveDID_overlay_document_witness :
  resolveDID (Sample.platform (Sample.answering Sample.documentField))
    Sample.registry "did:bsv:tm_did:abcd" Sample.anchor Sample.hintWorld
  = (Ok (Some Sample.documentField), Sample.hintWorld).
Proof.
  destruct (resolveDID_overlay_document
              (Sample.platform (Sample.answering Sample.documentField))
              Sample.registry Sample.hintWorld "did:bsv:tm_did:abcd"
              Sample.anchor "tm_did" "abcd" Sample.hint 0%Z
              eq_refl eq_refl eq_refl eq_refl eq_refl eq_refl eq_refl
              {| ok := true;
                 status := 200;
                 json :=
                   Ok {| answer_type := Some "output-list";
                         answer_outputs :=
                           Some [ {| output_fields :=
                                       Some [Sample.documentField] |} ] |} |}
              {| answer_type := Some "output-list";
                 answer_outputs :=
                   Some [ {| output_fields :=
                               Some [Sample.documentField] |} ] |}
              {| output_fields := Some [Sample.documentField] |}
              [] Sample.documentField []
              eq_refl eq_refl eq_refl eq_refl eq_refl eq_refl eq_refl)
    as [_ Hraw].
  apply Hraw. intros text H. discriminate H.
Defined.

End ResolveFacts.

(** ** Creation, update and their composition *)

Module LifecycleFacts.
Import Js JsFacts Registry RegistryFacts.

Lemma split_length_pos (sep : ascii) (s : string) :
  1 <= List.length (split sep s).
Proof.
  pose proof (split_not_nil sep s). destruct (split sep s); [contradiction|].
  cbn [List.length]. lia.
Qed.

Lemma find_app_found {A} (f : A -> bool) (l1 l2 : list A) (x : A) :
  find f l1 = Some x -> find f (l1 ++ l2) = Some x.
Proof.
  induction l1 as [|a rest IH]; simpl; [discriminate|].
  destruct (f a); [trivial|exact IH].
Qed.

Lemma resolveDID_wrong_count (P : Platform) (cfg : Config) (did : string)
    (car : CreateActionResult) (w : World) :
  List.length (split colon did) <> 4 ->
  fst (resolveDID P cfg did car w)
  = Err "Failed to resolve DID: Invalid DID format".
Proof.
  intros Hlen. unfold resolveDID. run.
  destruct (Nat.eqb (List.length (split colon did)) 4) eqn:E;
    [apply Nat.eqb_eq in E; contradiction|].
  reflexivity.
Qed.

Section Lifecycle.

Variable P : Platform.
Variable cfg : Config.

(** What [createDID] did when it returns a result. *)
Lemma createDID_ok_inv (opts : CreateOptions) (o : CreateOracle)
    (w w' : World) (r : CreateResult) :
  createDID P cfg opts o w = (Ok r, w') ->
  exists client token,
    newClient o = Ok client
    /\ lock client (lockArgs P (opt_didDocument opts) o) = Ok token
    /\ createAction client
         (createActionArgs P (opt_didDocument opts) o token) = Ok (car r)
    /\ did r = didOf cfg (serialNumberHex P (opt_didDocument opts) o)
    /\ res_didDocument r = finalDidDocument P opts (did r).
Proof.
  unfold createDID. run.
  destruct (newClient o) as [client|e]; [|discriminate]. run.
  destruct (lock client _) as [token|e] eqn:Hlock; [|discriminate]. run.
  destruct (createAction client _) as [anchor|e] eqn:Haction; [|discriminate].
  run.
  intros H. exists client, token.
  destruct (db cfg); [destruct (db_fault w)|]; run; cbv beta in H;
    injection H as <- _; repeat split; assumption.
Qed.

(** X10. [createDID] returns a result exactly when a wallet client is built, the
    token is locked and the anchoring transaction is created; the lookup
    index has no say. *)
Theorem createDID_succeeds_iff (opts : CreateOptions) (o : CreateOracle)
    (w : World) :
  (exists r w', createDID P cfg opts o w = (Ok r, w'))
  <->
  (exists client token anchor,
     newClient o = Ok client
     /\ lock client (lockArgs P (opt_didDocument opts) o) = Ok token
     /\ createAction client
          (createActionArgs P (opt_didDocument opts) o token) = Ok anchor).
Proof.
  split.
  - intros (r & w' & H).
    destruct (createDID_ok_inv opts o w w' r H)
      as (client & token & Hc & Hl & Ha & _).
    exists client, token, (car r). repeat split; assumption.
  - intros (client & token & anchor & Hc & Hl & Ha).
    destruct (createDID_run P cfg opts o client token anchor Hc Hl Ha w)
      as (w' & Hrun & _).
    eauto.
Qed.

(** X11. A failed [createDID] has not written the index; its error is the
    one of the collaborator that failed. When building the wallet client
    fails nothing else has happened; otherwise the handler has written its
    banner and then the error to the console, and a request (naming the
    serial number and the signature of the lock among its fields) reached
    the wallet only if it is the wallet that rejected it. *)
Theorem createDID_failure_leaves_index (opts : CreateOptions)
    (o : CreateOracle) (w w' : World) (e : string) :
  createDID P cfg opts o w = (Err e, w') ->
  did_lookups w' = did_lookups w
  /\ (newClient o = Err e /\ w' = w
      \/ exists client,
           newClient o = Ok client
           /\ walletClient w' = Some client
           /\ console_errors w' =
                (console_errors w
                 ++ [("[BsvOverlayRegistry] ========== createDID ERROR ==========",
                      "");
                     ("[BsvOverlayRegistry] Error in createDID:", e)])%list
           /\ (lock client (lockArgs P (opt_didDocument opts) o) = Err e
               /\ requests w' = requests w
               \/ exists token,
                    lock client (lockArgs P (opt_didDocument opts) o)
                      = Ok token
                    /\ createAction client
                         (createActionArgs P (opt_didDocument opts) o token)
                       = Err e
                    /\ requests w' =
                         (requests w
                          ++ [createActionArgs P (opt_didDocument opts) o
                                token])%list)).
Proof.
  unfold createDID. run.
  destruct (newClient o) as [client|e0].
  - run.
    destruct (lock client _) as [token|e1] eqn:Hlock; run.
    + destruct (createAction client _) as [anchor|e2] eqn:Haction; run.
      * destruct (db cfg); [destruct (db_fault w)|]; run; discriminate.
      * intros H. injection H as <- <-. cbn. split; [reflexivity|].
        right. exists client.
        split; [reflexivity|]. split; [reflexivity|].
        split; [rewrite <- List.app_assoc; reflexivity|].
        right. exists token. repeat split; assumption.
    + intros H. injection H as <- <-. cbn. split; [reflexivity|].
      right. exists client.
      split; [reflexivity|]. split; [reflexivity|].
      split; [rewrite <- List.app_assoc; reflexivity|].
      left. split; [exact Hlock|reflexivity].
  - intros H. injection H as <- <-. split; [reflexivity|].
    left. split; reflexivity.
Qed.

(** X12. The members of the input document that [createDID] does not set pass
    into the returned document unchanged, and a context the input gives is
    kept (the default one stands in for a missing or falsy context). *)
Theorem createDID_keeps_other_members (opts : CreateOptions)
    (o : CreateOracle) (w w' : World) (r : CreateResult) :
  createDID P cfg opts o w = (Ok r, w') ->
  (forall k,
     ~ In k ["id"; "@context"; "verificationMethod"; "authentication";
             "assertionMethod"; "keyAgreement"; "capabilityDelegation";
             "capabilityInvocation"] ->
     get k (res_didDocument r) = get k (opt_didDocument opts))
  /\ (forall context,
        get "@context" (opt_didDocument opts) = Some context ->
        truthy (Some context) = true ->
        get "@context" (res_didDocument r) = Some context)
  /\ (truthy (get "@context" (opt_didDocument opts)) = false ->
      get "@context" (res_didDocument r) = Some defaultContext).
Proof.
  intros H.
  destruct (createDID_ok_inv opts o w w' r H) as (_ & _ & _ & _ & _ & _ & Hdoc).
  rewrite Hdoc. clear Hdoc H.
  assert (Hctx : get "@context" (finalDidDocument P opts (did r))
                 = Some (or_else (get "@context" (opt_didDocument opts))
                           defaultContext)).
  { unfold finalDidDocument.
    destruct (publicKeyJWK opts) as [jwk|];
      [destruct (truthy (Some jwk));
       [destruct (keyId opts) as [id|];
        [destruct (truthy_str (Some id))|]|]|];
      cbv zeta; rewrite !get_set; reflexivity. }
  split; [|split].
  - intros k Hk.
    assert (Hne : forall k', In k' ["id"; "@context"; "verificationMethod";
                    "authentication"; "assertionMethod"; "keyAgreement";
                    "capabilityDelegation"; "capabilityInvocation"] ->
                  String.eqb k k' = false).
    { intros k' Hin. apply String.eqb_neq. intros ->. exact (Hk Hin). }
    unfold finalDidDocument.
    destruct (publicKeyJWK opts) as [jwk|];
      [destruct (truthy (Some jwk));
       [destruct (keyId opts) as [id|];
        [destruct (truthy_str (Some id))|]|]|];
      cbv zeta; rewrite !get_set;
      repeat (rewrite Hne by (cbn [In]; tauto)); reflexivity.
  - intros context Hget Htruthy. rewrite Hctx, Hget. unfold or_else.
    rewrite Htruthy. reflexivity.
  - intros Hfalsy. rewrite Hctx. unfold or_else.
    destruct (get "@context" (opt_didDocument opts)); [|reflexivity].
    rewrite Hfalsy. reflexivity.
Qed.

(** X13. The verification method that [createDID] attaches is controlled by the
    document it sits in: its [controller] is the document's [id], its own
    [id] is the given key id (or [<did>#key-1] when none or an empty one is
    given), and [authentication] and [assertionMethod] refer to it by that
    id. *)
Theorem createDID_method_controlled_by_document (opts : CreateOptions)
    (o : CreateOracle) (w w' : World) (r : CreateResult) (jwk : Json) :
  createDID P cfg opts o w = (Ok r, w') ->
  publicKeyJWK opts = Some jwk ->
  truthy (Some jwk) = true ->
  let id :=
    match keyId opts with
    | Some given => if String.eqb given "" then did r ++ "#key-1" else given
    | None => did r ++ "#key-1"
    end in
  get "id" (res_didDocument r) = Some (JStr (did r))
  /\ get "verificationMethod" (res_didDocument r) =
       Some (JArr [ JObj [ ("id", JStr id);
                           ("type",
                            JStr (EcdsaSecp256k1VerificationKey2019 P));
                           ("controller", JStr (did r));
                           ("publicKeyJwk", jwk) ] ])
  /\ get "authentication" (res_didDocument r) = Some (JArr [JStr id])
  /\ get "assertionMethod" (res_didDocument r) = Some (JArr [JStr id]).
Proof.
  intros H Hjwk Htruthy id.
  destruct (createDID_ok_inv opts o w w' r H) as (_ & _ & _ & _ & _ & _ & Hdoc).
  rewrite Hdoc. subst id. unfold finalDidDocument. rewrite Hjwk, Htruthy.
  destruct (keyId opts) as [given|]; cbn [truthy_str];
    [destruct (String.eqb given "")|]; cbn [negb];
    cbv zeta; rewrite !get_set; cbn [String.eqb Ascii.eqb Bool.eqb];
    repeat split.
Qed.

(** X14. Whatever happens, a call of [createDID] writes at most one record, and
    only together with a result, whose document and transaction id it holds
    under the serial number; it sends at most one request, with no input and
    one output of one satoshi; it never changes the database's state. *)
Theorem createDID_footprint (opts : CreateOptions) (o : CreateOracle)
    (w : World) :
  let w' := snd (createDID P cfg opts o w) in
  db_fault w' = db_fault w
  /\ (did_lookups w' = did_lookups w
      \/ exists record r,
           did_lookups w' = (did_lookups w ++ [record])%list
           /\ fst (createDID P cfg opts o w) = Ok r
           /\ db cfg = true
           /\ did r = "did:bsv:" ++ topic cfg ++ ":" ++ serialNumber record
           /\ didDocument record = Some (JObj (res_didDocument r))
           /\ rec_txid record = txid (car r)
           /\ vout record = Some 0%Z)
  /\ (requests w' = requests w
      \/ exists args output,
           requests w' = (requests w ++ [args])%list
           /\ inputs args = []
           /\ outputs args = [output]
           /\ satoshis output = 1%Z).
Proof.
  unfold createDID. run.
  destruct (newClient o) as [client|e0]; run;
    [|split; [reflexivity|split; left; reflexivity]].
  destruct (lock client _) as [token|e1]; run;
    [|split; [reflexivity|split; left; reflexivity]].
  assert (Hreq : forall rs : list CreateActionArgs,
            exists args output,
              (rs ++ [createActionArgs P (opt_didDocument opts) o token])%list
                = (rs ++ [args])%list
              /\ inputs args = [] /\ outputs args = [output]
              /\ satoshis output = 1%Z).
  { intros rs. do 2 eexists. repeat split. }
  destruct (createAction client _) as [anchor|e2]; run;
    [|split; [reflexivity|split; [left; reflexivity|right; apply Hreq]]].
  destruct (db cfg) eqn:Hdb; run;
    [destruct (db_fault w) eqn:Hf; run|];
    cbn [fst snd db_fault did_lookups requests];
    (split; [try reflexivity; symmetry; assumption|]);
    (split; [|right; apply Hreq]);
    try (left; reflexivity).
  right. do 2 eexists. repeat split.
Qed.

(** X15. [createDID] checks no earlier record: when two calls, each with a
    wallet client, a clock reading and a random string of its own, are given
    the same document and happen to draw the same timestamp and the same
    nonce, the second returns the identifier of the first and adds a second
    record under the same serial number, next to the record of the first. *)
Theorem createDID_no_deduplication (opts1 opts2 : CreateOptions)
    (o1 o2 : CreateOracle) (w w1 w2 : World) (r1 r2 : CreateResult) :
  opt_didDocument opts2 = opt_didDocument opts1 ->
  timestamp o2 = timestamp o1 ->
  nonce o2 = nonce o1 ->
  db cfg = true ->
  db_fault w = None ->
  createDID P cfg opts1 o1 w = (Ok r1, w1) ->
  createDID P cfg opts2 o2 w1 = (Ok r2, w2) ->
  did r2 = did r1
  /\ exists first second,
       did_lookups w2 = (did_lookups w ++ [first; second])%list
       /\ serialNumber second = serialNumber first
       /\ did r1 = "did:bsv:" ++ topic cfg ++ ":" ++ serialNumber first
       /\ didDocument first = Some (JObj (res_didDocument r1))
       /\ didDocument second = Some (JObj (res_didDocument r2))
       /\ createdAt first = now o1
       /\ createdAt second = now o2.
Proof.
  intros Hsame Htime Hnonce Hdb Hup H1 H2.
  destruct (createDID_ok_inv opts1 o1 w w1 r1 H1)
    as (c1 & s1 & Hc1 & Hl1 & Ha1 & Hd1 & Hdoc1).
  destruct (createDID_ok_inv opts2 o2 w1 w2 r2 H2)
    as (c2 & s2 & Hc2 & Hl2 & Ha2 & Hd2 & Hdoc2).
  destruct (createDID_run P cfg opts1 o1 c1 s1 (car r1) Hc1 Hl1 Ha1 w)
    as (w1' & Hrun1 & _ & Hf1 & _ & Hidx1 & _).
  rewrite H1 in Hrun1. injection Hrun1 as _ <-.
  destruct (createDID_run P cfg opts2 o2 c2 s2 (car r2) Hc2 Hl2 Ha2 w1)
    as (w2' & Hrun2 & _ & Hf2 & _ & Hidx2 & _).
  rewrite H2 in Hrun2. injection Hrun2 as _ <-.
  rewrite Hdb, Hup in Hidx1. rewrite Hup in Hf1.
  rewrite Hdb, Hf1 in Hidx2.
  assert (Hserial : serialNumberHex P (opt_didDocument opts2) o2
                    = serialNumberHex P (opt_didDocument opts1) o1).
  { unfold serialNumberHex, serialNumberBytes, uniqueData.
    rewrite Hsame, Htime, Hnonce. reflexivity. }
  split; [rewrite Hd1, Hd2, Hserial; reflexivity|].
  do 2 eexists.
  split; [rewrite Hidx2, Hidx1, <- List.app_assoc; reflexivity|].
  cbn [serialNumber didDocument createdAt lookupData].
  split; [exact Hserial|]. split; [exact Hd1|].
  split; [rewrite Hdoc1, Hd1; reflexivity|].
  split; [rewrite Hdoc2, Hd2; reflexivity|].
  split; reflexivity.
Qed.

(** X16. An identifier that [createDID] returns cannot be handed to [updateDID]:
    under a topic without colon it has four segments, and the update is
    refused before the wallet is asked. *)
Theorem updateDID_refuses_created_identifier (opts : CreateOptions)
    (o : CreateOracle) (w w1 : World) (r : CreateResult)
    (newDidDocument : Obj) :
  occurs colon (topic cfg) = false ->
  createDID P cfg opts o w = (Ok r, w1) ->
  fst (updateDID P cfg (did r) newDidDocument w1) = Err "Invalid DID format"
  /\ requests (snd (updateDID P cfg (did r) newDidDocument w1)) = requests w1.
Proof.
  intros Htopic H.
  destruct (createDID_ok_inv opts o w w1 r H) as (_ & _ & _ & _ & _ & Hd & _).
  rewrite Hd. unfold updateDID, didOf. run.
  rewrite split_did; [|exact Htopic|apply allHex_no_colon, toHex_allHex].
  split; reflexivity.
Qed.

(** X17. An identifier that [updateDID] returns cannot be resolved: it has five
    segments or more, so [resolveDID] rejects it, on this instance and on
    any other. *)
Theorem resolveDID_rejects_updated_identifier (did : string)
    (newDidDocument : Obj) (w w1 : World) (r : UpdateResult)
    (cfg' : Config) (car : CreateActionResult) (w2 : World) :
  updateDID P cfg did newDidDocument w = (Ok r, w1) ->
  fst (resolveDID P cfg' (upd_did r) car w2)
  = Err "Failed to resolve DID: Invalid DID format".
Proof.
  unfold updateDID. run.
  destruct (negb _); run; [discriminate|].
  destruct (walletClient w) as [wallet|]; [|discriminate].
  destruct (createAction wallet _) as [answer|e]; [|discriminate].
  intros H. injection H as <- _. cbn [upd_did].
  apply resolveDID_wrong_count.
  change (List.length
            (split colon
               ("did" ++ String colon ("bsv" ++ String colon
                  (topic cfg ++ String colon
                     (show (txid answer) ++ String colon "1"))))) <> 4).
  rewrite !split_app, !List.length_app.
  pose proof (split_length_pos colon (topic cfg)).
  pose proof (split_length_pos colon (show (txid answer))).
  change (split colon "did") with ["did"].
  change (split colon "bsv") with ["bsv"].
  change (split colon "1") with ["1"].
  cbn [List.length]. lia.
Qed.

(** X18. [updateDID] reads the fourth and the fifth segment only: the method, the
    scheme and the topic of the identifier are not looked at. *)
Theorem updateDID_ignores_leading_segments (did1 did2 : string)
    (a1 b1 c1 a2 b2 c2 previousTxid previousVout : string)
    (newDidDocument : Obj) (w : World) :
  split colon did1 = [a1; b1; c1; previousTxid; previousVout] ->
  split colon did2 = [a2; b2; c2; previousTxid; previousVout] ->
  updateDID P cfg did1 newDidDocument w = updateDID P cfg did2 newDidDocument w.
Proof.
  intros H1 H2. unfold updateDID. rewrite H1, H2. reflexivity.
Qed.

(** X19. On an instance on which [createDID] has not run (the constructor does
    not set the wallet client) every call of [updateDID] fails, and nothing
    is sent. *)
Theorem updateDID_fails_before_createDID (records : list LookupRecord)
    (fault : option string) (did : string) (newDidDocument : Obj) :
  exists e w',
    updateDID P cfg did newDidDocument (constructed records fault)
      = (Err e, w')
    /\ requests w' = [] /\ did_lookups w' = records.
Proof.
  unfold updateDID, constructed. run.
  destruct (negb _); run; do 2 eexists; repeat split.
Qed.

(** X20. [updateDID] never touches the index, the database or the wallet client,
    and sends at most one request: the document it anchors is not recorded
    for [resolveDID]. *)
Theorem updateDID_footprint (did : string) (newDidDocument : Obj) (w : World) :
  let w' := snd (updateDID P cfg did newDidDocument w) in
  did_lookups w' = did_lookups w
  /\ db_fault w' = db_fault w
  /\ walletClient w' = walletClient w
  /\ (requests w' = requests w
      \/ exists args, requests w' = (requests w ++ [args])%list).
Proof.
  destruct w as [client records fault sent lines].
  unfold updateDID. run.
  destruct (negb _); run;
    [split; [|split; [|split; [|left]]]; reflexivity|].
  destruct client as [wallet|]; run;
    [|split; [|split; [|split; [|left]]]; reflexivity].
  destruct (createAction wallet _) as [answer|e]; run;
    (split; [|split; [|split; [|right; eexists]]]); reflexivity.
Qed.

(** X21. After a [createDID] that built a wallet client (also one that failed
    later), [updateDID] hands its request to that client. *)
Theorem updateDID_uses_client_of_createDID (opts : CreateOptions)
    (o : CreateOracle) (client : WalletClient) (w : World) (did : string)
    (newDidDocument : Obj) (answer : CreateActionResult) :
  newClient o = Ok client ->
  List.length (split colon did) = 5 ->
  createAction client
    (updateActionArgs P cfg (nth 3 (split colon did) "")
       (parseInt (nth 4 (split colon did) "")) newDidDocument) = Ok answer ->
  fst (updateDID P cfg did newDidDocument (snd (createDID P cfg opts o w)))
  = Ok {| upd_did :=
            "did:bsv:" ++ topic cfg ++ ":" ++ show (txid answer) ++ ":1";
          upd_txid := txid answer |}.
Proof.
  intros Hclient Hlen Haction.
  assert (Hw : walletClient (snd (createDID P cfg opts o w)) = Some client).
  { unfold createDID. run. rewrite Hclient. run.
    destruct (lock client _); run; [|reflexivity].
    destruct (createAction client (createActionArgs _ _ _ _)); run;
      [|reflexivity].
    destruct (db cfg); [destruct (db_fault w)|]; reflexivity. }
  unfold updateDID. run. rewrite Hlen. cbn [Nat.eqb negb].
  rewrite Hw, Haction. reflexivity.
Qed.

End Lifecycle.

Lemma createDID_failure_leaves_index_witness :
  fst (createDID Sample.sdk Sample.registry Sample.options
         Sample.unfundedOracle Sample.emptyWorld)
  = Err "Insufficient funds"
  /\ console_errors
       (snd (createDID Sample.sdk Sample.registry Sample.options
               Sample.unfundedOracle Sample.emptyWorld))
     = [("[BsvOverlayRegistry] ========== createDID ERROR ==========", "");
        ("[BsvOverlayRegistry] Error in createDID:", "Insufficient funds")]
  /\ did_lookups
       (snd (createDID Sample.sdk Sample.registry Sample.options
               Sample.unfundedOracle Sample.emptyWorld))
     = [].
Proof.
  split; [reflexivity|]. split; [reflexivity|].
  exact (proj1
           (createDID_failure_leaves_index Sample.sdk Sample.registry
              Sample.options Sample.unfundedOracle Sample.emptyWorld
              (snd (createDID Sample.sdk Sample.registry Sample.options
                      Sample.unfundedOracle Sample.emptyWorld))
              "Insufficient funds" eq_refl)).
Defined.

Lemma createDID_keeps_other_members_witness :
  exists r w',
    createDID Sample.sdk Sample.registry Sample.optionsWithService
      Sample.oracle Sample.emptyWorld = (Ok r, w')
    /\ get "service" (res_didDocument r) = Some (JArr [JStr "hub"])
    /\ get "@context" (res_didDocument r)
       = Some (JArr [JStr "https://w3id.org/did/v1"]).
Proof.
  destruct (createDID Sample.sdk Sample.registry Sample.optionsWithService
              Sample.oracle Sample.emptyWorld) as [[r|e] w'] eqn:Hrun;
    [|vm_compute in Hrun; discriminate Hrun].
  exists r, w'. split; [reflexivity|].
  destruct (createDID_keeps_other_members Sample.sdk Sample.registry
              Sample.optionsWithService Sample.oracle Sample.emptyWorld w' r
              Hrun) as (Hother & Hcontext & _).
  split.
  - rewrite Hother; [reflexivity|].
    cbn [In]. intros H.
    repeat (destruct H as [H|H]; [discriminate H|]). exact H.
  - apply Hcontext; reflexivity.
Defined.

Lemma createDID_method_controlled_by_document_witness :
  exists r w',
    createDID Sample.sdk Sample.registry Sample.options Sample.oracle
      Sample.emptyWorld = (Ok r, w')
    /\ get "id" (res_didDocument r) = Some (JStr (did r))
    /\ get "authentication" (res_didDocument r)
       = Some (JArr [JStr (did r ++ "#key-1")]).
Proof.
  destruct (createDID Sample.sdk Sample.registry Sample.options
              Sample.oracle Sample.emptyWorld) as [[r|e] w'] eqn:Hrun;
    [|vm_compute in Hrun; discriminate Hrun].
  exists r, w'. split; [reflexivity|].
  destruct (createDID_method_controlled_by_document Sample.sdk
              Sample.registry Sample.options Sample.oracle Sample.emptyWorld
              w' r Sample.jwk Hrun eq_refl eq_refl)
    as (Hid & _ & Hauth & _).
  split; assumption.
Defined.

Lemma createDID_no_deduplication_witness :
  exists r1 w1 r2 w2,
    createDID Sample.sdk Sample.registry Sample.options Sample.oracle
      Sample.emptyWorld = (Ok r1, w1)
    /\ createDID Sample.sdk Sample.registry Sample.optionsWithoutKey
         Sample.laterOracle w1 = (Ok r2, w2)
    /\ did r2 = did r1
    /\ map serialNumber (did_lookups w2)
       = [serialNumberHex Sample.sdk (opt_didDocument Sample.options)
            Sample.oracle;
          serialNumberHex Sample.sdk (opt_didDocument Sample.options)
            Sample.oracle]
    /\ map createdAt (did_lookups w2) = [1700000000001; 1700000086401]%Z.
Proof.
  destruct (createDID Sample.sdk Sample.registry Sample.options
              Sample.oracle Sample.emptyWorld) as [[r1|e] w1] eqn:H1;
    [|vm_compute in H1; discriminate H1].
  destruct (createDID Sample.sdk Sample.registry Sample.optionsWithoutKey
              Sample.laterOracle w1) as [[r2|e] w2] eqn:H2.
  - exists r1, w1, r2, w2. split; [reflexivity|]. split; [exact H2|].
    destruct (createDID_no_deduplication Sample.sdk Sample.registry
                Sample.options Sample.optionsWithoutKey Sample.oracle
                Sample.laterOracle Sample.emptyWorld w1 w2 r1 r2
                eq_refl eq_refl eq_refl eq_refl eq_refl H1 H2)
      as (Hdid & first & second & Hidx & Hserial & Hd1 & _ & _ & Hat1 & Hat2).
    split; [exact Hdid|].
    rewrite Hidx.
    change (did_lookups Sample.emptyWorld ++ [first; second])%list
      with [first; second].
    cbn [map]. rewrite Hserial, Hat1, Hat2.
    destruct (createDID_ok_inv Sample.sdk Sample.registry Sample.options
                Sample.oracle Sample.emptyWorld w1 r1 H1)
      as (_ & _ & _ & _ & _ & Hd & _).
    rewrite Hd in Hd1. unfold didOf in Hd1.
    change ("did:bsv:" ++ topic Sample.registry ++ ":" ++ ?x)
      with ("did:bsv:tm_did:" ++ x) in Hd1.
    injection Hd1 as Hd1. rewrite <- Hd1.
    split; reflexivity.
  - exfalso.
    destruct (createDID_run Sample.sdk Sample.registry
                Sample.optionsWithoutKey Sample.laterOracle Sample.client
                Sample.token Sample.anchor eq_refl eq_refl eq_refl w1)
      as (w & Hrun & _).
    rewrite H2 in Hrun. discriminate Hrun.
Defined.

Lemma updateDID_refuses_created_identifier_witness :
  exists r w1,
    createDID Sample.sdk Sample.registry Sample.options Sample.oracle
      Sample.emptyWorld = (Ok r, w1)
    /\ fst (updateDID Sample.sdk Sample.registry (did r)
              [("id", JStr (did r))] w1)
       = Err "Invalid DID format".
Proof.
  destruct (createDID Sample.sdk Sample.registry Sample.options
              Sample.oracle Sample.emptyWorld) as [[r|e] w1] eqn:Hrun;
    [|vm_compute in Hrun; discriminate Hrun].
  exists r, w1. split; [reflexivity|].
  exact (proj1
           (updateDID_refuses_created_identifier Sample.sdk Sample.registry
              Sample.options Sample.oracle Sample.emptyWorld w1 r
              [("id", JStr (did r))] eq_refl Hrun)).
Defined.

Lemma resolveDID_rejects_updated_identifier_witness :
  fst (resolveDID Sample.sdk Sample.registry "did:bsv:tm_did:beef:1"
         Sample.anchor Sample.storedWorld)
  = Err "Failed to resolve DID: Invalid DID format".
Proof.
  exact (resolveDID_rejects_updated_identifier Sample.sdk Sample.registry
           "did:bsv:tm_did:cafe:0" [("id", JStr "did:bsv:tm_did:cafe:0")]
           Sample.readyWorld
           (snd (updateDID Sample.sdk Sample.registry "did:bsv:tm_did:cafe:0"
                   [("id", JStr "did:bsv:tm_did:cafe:0")] Sample.readyWorld))
           {| upd_did := "did:bsv:tm_did:beef:1"; upd_txid := Some "beef" |}
           Sample.registry Sample.anchor Sample.storedWorld eq_refl).
Defined.

Lemma updateDID_ignores_leading_segments_witness :
  updateDID Sample.sdk Sample.registry "did:bsv:tm_did:cafe:0" []
    Sample.readyWorld
  = updateDID Sample.sdk Sample.registry "urn:x:elsewhere:cafe:0" []
      Sample.readyWorld.
Proof.
  exact (updateDID_ignores_leading_segments Sample.sdk Sample.registry
           "did:bsv:tm_did:cafe:0" "urn:x:elsewhere:cafe:0"
           "did" "bsv" "tm_did" "urn" "x" "elsewhere" "cafe" "0" []
           Sample.readyWorld eq_refl eq_refl).
Defined.

Lemma updateDID_uses_client_of_createDID_witness :
  fst (updateDID Sample.sdk Sample.registry "did:bsv:tm_did:cafe:0" []
         (snd (createDID Sample.sdk Sample.registry Sample.options
                 Sample.oracle Sample.emptyWorld)))
  = Ok {| upd_did := "did:bsv:tm_did:beef:1"; upd_txid := Some "beef" |}.
Proof.
  exact (updateDID_uses_client_of_createDID Sample.sdk Sample.registry
           Sample.options Sample.oracle Sample.client Sample.emptyWorld
           "did:bsv:tm_did:cafe:0" [] Sample.anchor
           eq_refl eq_refl eq_refl).
Defined.

End LifecycleFacts.

(** ** The overlay notifier and the issuer's route *)

Module NotifierFacts.
Import Js JsFacts Registry RegistryFacts.

Example toLowerCase_samples :
  toLowerCase "ERROR" = "error" /\ toLowerCase "Error" = "error"
  /\ toLowerCase "success" = "success" /\ toLowerCase "" = "".
Proof. repeat split. Qed.

Section Notify.

Variable P : Platform.
Variable B : Broadcaster.

(** X22. [notifyOverlayProvider] fails exactly on a status that reads [error] in
    any letter case, with the serialised response in its message; any other
    text and a missing or [null] status let it return; a rejection of the
    broadcaster is passed on. In every case it writes to the console
    only. *)
Theorem notifyOverlayProvider_status_rule (topic : string)
    (beef : list byte) (serial txid : string) (outputIndex : Z) (w : World) :
  (forall response status,
     broadcast B [topic] beef txid = Ok response ->
     get "status" response = Some (JStr status) ->
     toLowerCase status = "error" ->
     fst (notifyOverlayProvider P B topic beef serial txid outputIndex w)
     = Err ("LARS submission failed: " ++ stringify P (JObj response)))
  /\ (forall response status,
        broadcast B [topic] beef txid = Ok response ->
        get "status" response = Some (JStr status) ->
        toLowerCase status <> "error" ->
        notifyOverlayProvider P B topic beef serial txid outputIndex w
        = (Ok tt, w))
  /\ (forall response,
        broadcast B [topic] beef txid = Ok response ->
        get "status" response = None \/ get "status" response = Some JNull ->
        notifyOverlayProvider P B topic beef serial txid outputIndex w
        = (Ok tt, w))
  /\ (forall e,
        broadcast B [topic] beef txid = Err e ->
        notifyOverlayProvider P B topic beef serial txid outputIndex w
        = (Err e,
           snd (console_error
                  "[BsvOverlayRegistry] Error notifying overlay provider:"
                  e w)))
  /\ same_store w
       (snd (notifyOverlayProvider P B topic beef serial txid outputIndex w)).
Proof.
  unfold notifyOverlayProvider.
  split; [|split; [|split; [|split]]].
  - intros response status Hb Hs Hlow. run. rewrite Hb, Hs, Hlow.
    rewrite orb_true_r. reflexivity.
  - intros response status Hb Hs Hlow. run. rewrite Hb, Hs.
    destruct (String.eqb status "error") eqn:E1.
    + apply String.eqb_eq in E1. subst status. exfalso. apply Hlow.
      reflexivity.
    + apply String.eqb_neq in Hlow. rewrite Hlow. reflexivity.
  - intros response Hb [Hs|Hs]; run; rewrite Hb, Hs; reflexivity.
  - intros e Hb. unfold try_catch, bind, await. rewrite Hb. reflexivity.
  - destruct w as [client records fault sent lines]. run.
    destruct (broadcast B [topic] beef txid) as [response|e];
      [|repeat split].
    destruct (get "status" response) as [[| | |status| |]|];
      try destruct (_ || _)%bool; repeat split.
Qed.

End Notify.
End NotifierFacts.

Module IssuerFacts.
Import Certifier CertifierFacts.

(** X23. Validation passes exactly when the nonce and the type are non-empty
    strings and the fields and the keyring are present; an empty record of
    fields or of keys passes. *)
Theorem certifierSignCheckArgs_accepts_iff (b : Body) :
  certifierSignCheckArgs b = Ok tt
  <->
  exists cn ty fs kr,
    clientNonce b = Some cn /\ cn <> ""
    /\ type b = Some ty /\ ty <> ""
    /\ fields b = Some fs /\ masterKeyring b = Some kr.
Proof.
  unfold certifierSignCheckArgs. split.
  - destruct (clientNonce b) as [cn|]; cbn [Js.truthy_str negb];
      [|discriminate].
    destruct (String.eqb cn "") eqn:Ecn; cbn [negb]; [discriminate|].
    destruct (type b) as [ty|]; cbn [Js.truthy_str negb]; [|discriminate].
    destruct (String.eqb ty "") eqn:Ety; cbn [negb]; [discriminate|].
    destruct (fields b) as [fs|]; [|discriminate].
    destruct (masterKeyring b) as [kr|]; [|discriminate].
    intros _. exists cn, ty, fs, kr.
    apply String.eqb_neq in Ecn, Ety. repeat split; assumption.
  - intros (cn & ty & fs & kr & -> & Hcn & -> & Hty & -> & ->).
    apply String.eqb_neq in Hcn, Hty. cbn [Js.truthy_str].
    rewrite Hcn, Hty. reflexivity.
Qed.

(** A line is not among those of a list none of whose lines has its
    shape. *)
Ltac not_logged :=
  let H := fresh "H" in
  intros H;
  repeat (destruct H as [H|H]; [discriminate H|]);
  destruct H.

(** A branch of the route that fails before the decrypted fields are
    written: the console holds the client nonce and the error. *)
Ltac before_decryption :=
  cbn [fst snd Datatypes.app];
  split;
    [split; [eexists; reflexivity|];
     split; [let H := fresh "H" in
             intros H; exfalso; apply H; reflexivity|];
     split;
       [intros ?plain; split;
          [not_logged
          |intros (? & ? & ? & ? & ? & ? & ? & ? & ? & ? & ? & ? & ? & ? & ?
                   & ?);
           exfalso; congruence]
       |intros ?plain; not_logged]
    |];
  split;
    [split; [reflexivity|intros _; eexists; right; left; reflexivity]|];
  let e := fresh "e" in
  let H := fresh "H" in
  intros e H; destruct H as [H|[H|[]]]; [discriminate H|];
  eexists [_]; split; [rewrite H; reflexivity|];
  intros ?e'; not_logged.

(** A branch that fails after they are written: the console holds the
    client nonce, the decrypted fields and the error. *)
Ltac after_decryption Hreached :=
  cbn [fst snd Datatypes.app];
  split;
    [split; [eexists; reflexivity|];
     split; [let H := fresh "H" in
             intros H; exfalso; apply H; reflexivity|];
     split;
       [intros ?plain; split;
          [let H := fresh "H" in
           intros H; destruct H as [H|[H|[H|[]]]]; try discriminate H;
           injection H as <-; exact Hreached
          |intros (? & ? & ? & ? & ? & ? & ? & ? & ? & ? & ? & ? & ? & ? & ?
                   & ?);
           match goal with
           | |- In (LogDecryptedFields ?p) [_; LogDecryptedFields ?q; _] =>
               assert (p = q) as -> by congruence
           end;
           right; left; reflexivity]
       |let H := fresh "H" in
        intros ?plain H; destruct H as [H|[H|[H|[]]]]; try discriminate H;
        injection H as <-; right; eexists; reflexivity]
    |];
  split;
    [split; [reflexivity
            |intros _; eexists; right; right; left; reflexivity]|];
  let e := fresh "e" in
  let H := fresh "H" in
  intros e H; destruct H as [H|[H|[H|[]]]]; try discriminate H;
  eexists [_; _]; split; [rewrite H; reflexivity|];
  intros ?e'; not_logged.

Section Route.

Variable U : Codec.

(** X24. A request that fails validation is answered from its body alone, and
    one that carries no [auth] from its body and that absence: the wallet is
    not consulted. Neither is it for a request with no body. *)
Theorem func_answers_without_wallet (req req' : Request) :
  body req' = body req ->
  (forall b,
     body req = Members b ->
     (certifierSignCheckArgs b <> Ok tt ->
      func U req' = func U req
      /\ http_status (fst (func U req)) = 400%Z)
     /\ (certifierSignCheckArgs b = Ok tt ->
         auth req = None -> auth req' = None ->
         func U req' = func U req
         /\ fst (func U req) = internalError))
  /\ (body req = Undefined \/ body req = Null ->
      func U req' = func U req
      /\ fst (func U req) = internalError).
Proof.
  intros Hsame. split.
  - intros b Hbody. split.
    + intros Hcheck. unfold func. rewrite Hsame, Hbody.
      destruct (certifierSignCheckArgs b) as [[]|m];
        [contradiction|split; reflexivity].
    + intros Hcheck Hauth Hauth'. unfold func, issue.
      rewrite Hsame, Hbody, Hcheck, Hauth, Hauth'. split; reflexivity.
  - intros [Hbody|Hbody]; unfold func; rewrite Hsame, Hbody;
      split; reflexivity.
Qed.

(** X25. The route answers with status 200, 400 or 500 and no other: 400
    exactly when the body has members that fail validation, 200 exactly when
    the steps after validation all succeed, and then with a certificate;
    500 with the [error] body when the body is missing or a step after
    validation fails. *)
Theorem func_status_cases (req : Request) :
  let response := fst (func U req) in
  (http_status response = 400%Z
   <-> exists b, body req = Members b /\ certifierSignCheckArgs b <> Ok tt)
  /\ (http_status response = 200%Z
      <-> exists c serverNonce, payload response = Signed c serverNonce)
  /\ (http_status response = 200%Z
      <-> exists b lines,
            body req = Members b /\ certifierSignCheckArgs b = Ok tt
            /\ issue U b req = (lines, Ok response))
  /\ (response = internalError
      <-> body req = Undefined \/ body req = Null
          \/ exists b lines e,
               body req = Members b /\ certifierSignCheckArgs b = Ok tt
               /\ issue U b req = (lines, Err e))
  /\ (http_status response = 200%Z
      \/ (exists description,
            response = badRequest description)
      \/ response = internalError).
Proof.
  cbv zeta.
  destruct (body req) as [| |b] eqn:Hbody.
  - unfold func. rewrite Hbody. cbn.
    split; [split; [discriminate|intros (b & H & _); discriminate]|].
    split; [split; [discriminate|intros (c & sn & H); discriminate]|].
    split; [split; [discriminate|intros (b & l & H & _); discriminate]|].
    split; [split; [left; reflexivity|reflexivity]|].
    right. right. reflexivity.
  - unfold func. rewrite Hbody. cbn.
    split; [split; [discriminate|intros (b & H & _); discriminate]|].
    split; [split; [discriminate|intros (c & sn & H); discriminate]|].
    split; [split; [discriminate|intros (b & l & H & _); discriminate]|].
    split; [split; [right; left; reflexivity|reflexivity]|].
    right. right. reflexivity.
  - destruct (certifierSignCheckArgs b) as [[]|m] eqn:Hcheck.
    + destruct (func_after_validation U req b Hbody Hcheck)
        as [(c & sn & l & Hissue & Hfunc)|(l & e & Hissue & Hfunc)];
        rewrite Hfunc; cbn [fst].
      * split; [split; [discriminate|]|].
        { intros (b' & Hb' & Hne). injection Hb' as <-.
          exfalso. apply Hne. exact Hcheck. }
        split; [split; [intros _; exists c, sn; reflexivity|reflexivity]|].
        split; [split; [intros _; exists b, l; repeat split; assumption
                       |reflexivity]|].
        split; [split; [discriminate|]|left; reflexivity].
        intros [H|[H|(b' & l' & e & Hb' & _ & Hissue')]];
          try discriminate.
        injection Hb' as <-. rewrite Hissue in Hissue'. discriminate.
      * split; [split; [discriminate|]|].
        { intros (b' & Hb' & Hne). injection Hb' as <-.
          exfalso. apply Hne. exact Hcheck. }
        split; [split; [discriminate|intros (c & sn & H); discriminate]|].
        split; [split; [discriminate|]|].
        { intros (b' & l' & Hb' & _ & Hissue'). injection Hb' as <-.
          rewrite Hissue in Hissue'. discriminate. }
        split; [split; [|reflexivity]|right; right; reflexivity].
        intros _. right. right. exists b, l, e. repeat split; assumption.
    + unfold func. rewrite Hbody, Hcheck. cbn [fst http_status payload].
      split; [split; [intros _; exists b;
                      split; [reflexivity|rewrite Hcheck; discriminate]
                     |reflexivity]|].
      split; [split; [discriminate|intros (c & sn & H); discriminate]|].
      split; [split; [discriminate|]|].
      { intros (b' & l' & Hb' & Hok & _). injection Hb' as <-.
        rewrite Hcheck in Hok. discriminate. }
      split; [split; [discriminate|]|right; left; eexists; reflexivity].
      intros [H|[H|(b' & l' & e & Hb' & Hok & _)]]; try discriminate.
      injection Hb' as <-. rewrite Hcheck in Hok. discriminate.
Qed.

(** X26. Every certificate the route returns names the requester as subject and
    the wallet's identity key as certifier, has the submitted type and the
    all-zero revocation outpoint, and carries the signature the wallet
    computed over that same certificate without a signature. *)
Theorem func_certificate_shape (req : Request) (c : Certificate)
    (serverNonce : string) (lines : list LogLine) :
  func U req = (success c serverNonce, lines) ->
  (exists b, body req = Members b /\ type b = Some (cert_type c))
  /\ auth req = Some (subject c)
  /\ getPublicKey (wallet req) = Ok (certifier c)
  /\ revocationOutpoint c =
       "0000000000000000000000000000000000000000000000000000000000000000.0"
  /\ exists sig,
       signature c = Some sig
       /\ sign (wallet req)
            {| cert_type := cert_type c;
               serialNumber := serialNumber c;
               subject := subject c;
               certifier := certifier c;
               revocationOutpoint := revocationOutpoint c;
               cert_fields := cert_fields c;
               signature := None |} = Ok sig.
Proof.
  intros H.
  destruct (func_success_inv U req c serverNonce lines H)
    as (b & cn & ty & fs & kr & idk & valid & hmac & plain & pk & sig
        & Hbody & _ & _ & Hty & _ & _ & Hauth & _ & _ & _ & _ & Hpk & Hsign
        & Hc & _).
  subst c. cbn.
  split; [exists b; split; assumption|].
  repeat split; try assumption.
  exists sig. split; [reflexivity|exact Hsign].
Qed.

(** X27. What the console receives. With no body, the error of reading it and
    nothing else. With a body, the client nonce first, and nothing more when
    validation fails. The decrypted fields are written exactly when every
    step up to the decryption succeeded, and what is written is what
    [decryptFields] returned for the submitted keyring and fields, also when
    the certificate is not issued after it. An error is written exactly
    when the request is answered with the internal failure, and it is the
    last line. *)
Theorem func_console_lines (req : Request) :
  let response := fst (func U req) in
  let lines := snd (func U req) in
  (body req = Undefined ->
   lines = [LogError (notDestructurable "undefined")])
  /\ (body req = Null -> lines = [LogError (notDestructurable "null")])
  /\ (forall b,
        body req = Members b ->
        (exists rest, lines = LogClientNonce (clientNonce b) :: rest)
        /\ (certifierSignCheckArgs b <> Ok tt ->
            lines = [LogClientNonce (clientNonce b)])
        /\ (forall plain,
              In (LogDecryptedFields plain) lines
              <-> exists cn fs kr idk valid sn hmac,
                    certifierSignCheckArgs b = Ok tt
                    /\ clientNonce b = Some cn
                    /\ fields b = Some fs
                    /\ masterKeyring b = Some kr
                    /\ auth req = Some idk
                    /\ verifyNonce (wallet req) cn idk = Ok valid
                    /\ createNonce (wallet req) idk = Ok sn
                    /\ createHmac (wallet req) (hmacArgs U cn sn idk)
                       = Ok hmac
                    /\ decryptFields (wallet req) kr fs idk = Ok plain)
        /\ (forall plain,
              In (LogDecryptedFields plain) lines ->
              lines = [LogClientNonce (clientNonce b);
                       LogDecryptedFields plain]
              \/ exists e,
                   lines = [LogClientNonce (clientNonce b);
                            LogDecryptedFields plain; LogError e]))
  /\ ((exists e, In (LogError e) lines) <-> response = internalError)
  /\ (forall e,
        In (LogError e) lines ->
        exists front,
          lines = (front ++ [LogError e])%list
          /\ forall e', ~ In (LogError e') front).
Proof.
  cbv zeta.
  destruct (body req) as [| |b] eqn:Hbody.
  - unfold func. rewrite Hbody.
    split; [reflexivity|]. split; [discriminate|].
    split; [intros b H; discriminate|]. cbn [fst snd]. split.
    + split; [reflexivity|]. intros _. eexists. left. reflexivity.
    + intros e [H|[]]. exists []. split; [rewrite H; reflexivity|].
      intros e' [].
  - unfold func. rewrite Hbody.
    split; [discriminate|]. split; [reflexivity|].
    split; [intros b H; discriminate|]. cbn [fst snd]. split.
    + split; [reflexivity|]. intros _. eexists. left. reflexivity.
    + intros e [H|[]]. exists []. split; [rewrite H; reflexivity|].
      intros e' [].
  - split; [discriminate|]. split; [discriminate|].
    match goal with
    | |- (forall b0, Members b = Members b0 -> @?P b0) /\ ?Q =>
        enough (Hmain : P b /\ Q)
    end.
    { destruct Hmain as [HP HQ]. split; [|exact HQ].
      intros b' Hb'. injection Hb' as <-. exact HP. }
    cbv beta. unfold func. rewrite Hbody. cbv beta iota zeta.
    destruct (certifierSignCheckArgs b) as [[]|m] eqn:Hcheck.
    + destruct (check_passes _ Hcheck)
        as (cn & ty & fs & kr & Hcn & Hty & Hfs & Hkr).
      unfold issue. rewrite Hcn, Hty, Hfs, Hkr. cbn [the].
      unfold bind, await, ret, console.
      destruct (auth req) as [idk|] eqn:Hauth; [|before_decryption].
      destruct (verifyNonce (wallet req) cn idk) as [valid|e1] eqn:Hv;
        [|before_decryption].
      destruct (createNonce (wallet req) idk) as [sn|e1] eqn:Hn;
        [|before_decryption].
      destruct (createHmac (wallet req) (hmacArgs U cn sn idk))
        as [hmac|e1] eqn:Hh; [|before_decryption].
      destruct (decryptFields (wallet req) kr fs idk) as [plain0|e1] eqn:Hd;
        [|before_decryption].
      assert (Hreached : exists cn' fs' kr' idk' valid' sn' hmac',
                Ok tt = Ok tt
                /\ Some cn = Some cn'
                /\ Some fs = Some fs'
                /\ Some kr = Some kr'
                /\ Some idk = Some idk'
                /\ verifyNonce (wallet req) cn' idk' = Ok valid'
                /\ createNonce (wallet req) idk' = Ok sn'
                /\ createHmac (wallet req) (hmacArgs U cn' sn' idk')
                   = Ok hmac'
                /\ decryptFields (wallet req) kr' fs' idk' = Ok plain0).
      { exists cn, fs, kr, idk, valid, sn, hmac.
        repeat split; assumption. }
      destruct (getPublicKey (wallet req)) as [pk|e1] eqn:Hp;
        [|after_decryption Hreached].
      match goal with
      | |- context [sign (wallet req) ?x] =>
          destruct (sign (wallet req) x) as [sig|e1] eqn:Hs;
            [|after_decryption Hreached]
      end.
      cbn [fst snd Datatypes.app].
      split; [split; [eexists; reflexivity|];
              split; [intros H; exfalso; apply H; reflexivity|]; split|].
      * intros plain. split.
        -- intros [H|[H|[]]]; try discriminate H.
           injection H as <-. exact Hreached.
        -- intros (? & ? & ? & ? & ? & ? & ? & ? & ? & ? & ? & ? & ? & ? & ?
                   & ?).
           assert (plain = plain0) as -> by congruence.
           right. left. reflexivity.
      * intros plain [H|[H|[]]]; try discriminate H.
        injection H as <-. left. reflexivity.
      * split; [split; [|discriminate]|].
        -- intros (e & H). revert H. not_logged.
        -- intros e. not_logged.
    + cbn [fst snd].
      split; [split; [eexists; reflexivity|];
              split; [reflexivity|]; split|].
      * intros plain. split; [not_logged|].
        intros (? & ? & ? & ? & ? & ? & ? & H & _). discriminate H.
      * intros plain. not_logged.
      * split; [split; [|discriminate]|].
        -- intros (e & H). revert H. not_logged.
        -- intros e. not_logged.
Qed.

End Route.

Lemma func_answers_without_wallet_witness :
  func Sample.codec Sample.requestReplayed
  = func Sample.codec Sample.requestNoKeyring.
Proof.
  destruct (proj1 (func_answers_without_wallet Sample.codec
                     Sample.requestNoKeyring Sample.requestReplayed eq_refl)
              Sample.membersNoKeyring eq_refl) as [Hinvalid _].
  apply Hinvalid. vm_compute. discriminate.
Defined.

Lemma func_certificate_shape_witness :
  (exists b,
     body Sample.request = Members b
     /\ type b = Some (cert_type Sample.certificate))
  /\ auth Sample.request = Some (subject Sample.certificate)
  /\ getPublicKey (wallet Sample.request)
     = Ok (certifier Sample.certificate).
Proof.
  destruct (func_certificate_shape Sample.codec Sample.request
              Sample.certificate "c2VydmVy"
              [LogClientNonce (Some "Y2xpZW50");
               LogDecryptedFields [("cool", "true")]]
              eq_refl) as (Htype & Hsubject & Hcertifier & _).
  repeat split; assumption.
Defined.

End IssuerFacts.
